(** * uniauth/models.py: profiles, linked emails and the post_save receivers

    A shallow embedding of [src/uniauth/models.py].  The four Django models
    are records, the database is a record of tables (finite maps from primary
    key to row), and the code that touches the database runs in a state and
    exception monad: an exception carries the database as it was left, since
    nothing in the module opens a transaction around the receivers. *)

From Stdlib Require Import ZArith Ascii String.
From stdpp Require Import base option gmap strings list fin_maps.

Local Open Scope string_scope.
Local Open Scope Z_scope.

(** ** Exceptions and outcomes *)

(** The exceptions that can reach this module. *)
Inductive Exn : Type :=
  | IntegrityError      (* a UNIQUE / FOREIGN KEY constraint was violated *)
  | DatabaseError       (* any other failure of the underlying store *)
  | DoesNotExist        (* a related row could not be loaded *)
  | OverflowError.      (* datetime / timedelta arithmetic out of range *)

Inductive Outcome (A : Type) : Type :=
  | Return (a : A)
  | Raise (e : Exn).
Arguments Return {A} a.
Arguments Raise {A} e.

(** ** datetime *)

Module datetime.

(** A [datetime.datetime].  The date part is held as its proleptic Gregorian
    ordinal ([toordinal()]: 1 is 0001-01-01), which is how the library itself
    does day arithmetic; the time-of-day fields are kept as they are. *)
Record t : Type := mk {
  ordinal : Z;
  hour : Z;
  minute : Z;
  second : Z;
  microsecond : Z }.

(** [date.max.toordinal()], 9999-12-31. *)
Definition MAXORDINAL : Z := 3652059.

Definition valid (d : t) : Prop :=
  1 <= ordinal d <= MAXORDINAL /\ 0 <= hour d < 24 /\ 0 <= minute d < 60 /\
  0 <= second d < 60 /\ 0 <= microsecond d < 1000000.

(** [timedelta(days=n)]: the constructor refuses more than 999999999 days
    either way.  Only whole days are ever built here, so a timedelta is its
    number of days. *)
Definition timedelta (days : Z) : Outcome Z :=
  if (Z.abs days <=? 999999999) then Return days else Raise OverflowError.

(** [d - delta] for a timedelta of whole days: the date moves, the time of
    day stays, and a date outside 0001-01-01 .. 9999-12-31 raises. *)
Definition sub (d : t) (delta : Z) : Outcome t :=
  let o := ordinal d - delta in
  if (0 <? o) && (o <=? MAXORDINAL)
  then Return (mk o (hour d) (minute d) (second d) (microsecond d))
  else Raise OverflowError.

(** [d.replace(hour=0, minute=0, second=0, microsecond=0)]. *)
Definition replace_midnight (d : t) : t := mk (ordinal d) 0 0 0 0.

(** [a < b], field by field from the most significant one. *)
Definition ltb (a b : t) : bool :=
  if ordinal a <? ordinal b then true
  else if ordinal b <? ordinal a then false
  else if hour a <? hour b then true
  else if hour b <? hour a then false
  else if minute a <? minute b then true
  else if minute b <? minute a then false
  else if second a <? second b then true
  else if second b <? second a then false
  else microsecond a <? microsecond b.

(** The microseconds from 0000-12-31 00:00 to [d]. *)
Definition total_microseconds (d : t) : Z :=
  (((ordinal d * 24 + hour d) * 60 + minute d) * 60 + second d) * 1000000
  + microsecond d.

End datetime.

(** ** The models *)

(** An object of a model: its primary key and its field values. *)
Record Obj (R : Type) : Type := mkObj { pk : Z; fields : R }.
Arguments mkObj {R} pk fields.
Arguments pk {R} o.
Arguments fields {R} o.

Module User.
(** Modelled from the spec: the user model, [get_user_model()], is not part
    of this module.  The spec gives it an id, a username, an email that may
    be empty and an optional creation timestamp; [date_joined] is [None] for
    a row that has no such value. *)
Record t : Type := mk {
  username : string;
  email : string;
  date_joined : option datetime.t }.
End User.

Module UserProfile.
(** [user = OneToOneField(get_user_model(), on_delete=CASCADE, null=False)] *)
Record t : Type := mk { user : Z }.
End UserProfile.

Module LinkedEmail.
(** [profile = ForeignKey('UserProfile', on_delete=CASCADE, null=False)],
    [address = EmailField(null=False)],
    [is_verified = BooleanField(default=False)] *)
Record t : Type := mk {
  profile : Z;
  address : string;
  is_verified : bool }.
End LinkedEmail.

Module Institution.
(** [name], [slug] (unique) and [cas_server_url]. *)
Record t : Type := mk {
  name : string;
  slug : string;
  cas_server_url : string }.
End Institution.

Module InstitutionAccount.
(** [profile] and [institution] are cascading foreign keys. *)
Record t : Type := mk {
  profile : Z;
  institution : Z;
  cas_id : string }.
End InstitutionAccount.

(** The database: one table per model, from primary key to row. *)
Record DB : Type := mkDB {
  users : gmap Z User.t;
  profiles : gmap Z UserProfile.t;
  linked_emails : gmap Z LinkedEmail.t;
  institutions : gmap Z Institution.t;
  accounts : gmap Z InstitutionAccount.t }.

(** What the module asks of the store. *)
Inductive Statement : Type :=
  | InsertUserProfile (row : UserProfile.t)
  | InsertLinkedEmail (row : LinkedEmail.t)
  | DeleteUsers (pks : list Z).

(** ** The monad of database code *)

Definition M (A : Type) : Type := DB -> Outcome A * DB.

Definition ret {A} (a : A) : M A := fun db => (Return a, db).

Definition bind {A B} (m : M A) (k : A -> M B) : M B := fun db =>
  match m db with
  | (Return a, db') => k a db'
  | (Raise e, db') => (Raise e, db')
  end.

(** A computation that cannot touch the database. *)
Definition lift {A} (o : Outcome A) : M A := fun db => (o, db).

(** [try: body except: handler], with a bare [except]. *)
Definition try_except {A} (body handler : M A) : M A := fun db =>
  match body db with
  | (Return a, db') => (Return a, db')
  | (Raise _, db') => handler db'
  end.

Declare Scope db_scope.
Delimit Scope db_scope with db.
Notation "x <~ m ;; k" := (bind m (fun x => k))
  (at level 100, m at next level, right associativity) : db_scope.
Notation "m ;;; k" := (bind m (fun _ => k))
  (at level 100, right associativity) : db_scope.
Local Open Scope db_scope.

(** ** Primary keys *)

(** The key given to a new row: one more than the largest in the table. *)
Definition next_pk {R} (table : gmap Z R) : Z :=
  1 + foldr Z.max 0 (map_to_list table).*1.

(** Python truthiness of a [str]. *)
Definition str_truthy (s : string) : bool :=
  match s with EmptyString => false | String _ _ => true end.

(** Python truthiness of a model instance: [models.Model] defines neither
    [__bool__] nor [__len__], so every instance is true. *)
Definition obj_truthy {R} (o : Obj R) : bool := true.

(** ** Queries *)

(** The profiles whose [user] is the user [u]. *)
Definition profiles_of (u : Z) (db : DB) : gmap Z UserProfile.t :=
  filter (fun kv => UserProfile.user kv.2 = u) (profiles db).

(** The linked emails whose [profile] is the profile [p]. *)
Definition linked_emails_of (p : Z) (db : DB) : gmap Z LinkedEmail.t :=
  filter (fun kv => LinkedEmail.profile kv.2 = p) (linked_emails db).

(** [Model.objects.get(pk=k)] on one table, as the descriptor of a related
    field does it: the row, or [DoesNotExist]. *)
Definition get_related {R} (table : DB -> gmap Z R) (k : Z) : M (Obj R) :=
  fun db =>
    match table db !! k with
    | Some r => (Return (mkObj k r), db)
    | None => (Raise DoesNotExist, db)
    end.

(** The lower-case form of an ASCII letter, every other character as it is:
    the folding that SQLite's LIKE applies to both sides. *)
Definition ascii_lower (c : Ascii.ascii) : Ascii.ascii :=
  let n := Ascii.N_of_ascii c in
  if ((65 <=? n) && (n <=? 90))%N then Ascii.ascii_of_N (n + 32) else c.

(** [p] is a prefix of [s] when the case of ASCII letters is ignored. *)
Fixpoint iprefix (p s : string) : bool :=
  match p with
  | EmptyString => true
  | String a p' =>
    match s with
    | EmptyString => false
    | String b s' => Ascii.eqb (ascii_lower a) (ascii_lower b) && iprefix p' s'
    end
  end.

(** The lookup [field__startswith=p] on the value [s], for a [p] without
    wildcard characters.  The database evaluates it: PostgreSQL, MySQL and
    Oracle compare the characters as they are; on SQLite the lookup is a LIKE,
    which ignores the case of ASCII letters. *)
Definition startswith (like_is_case_sensitive : bool) (p s : string) : bool :=
  if like_is_case_sensitive then String.prefix p s else iprefix p s.

(** The institution accounts whose [profile] is the profile [p]. *)
Definition accounts_of (p : Z) (db : DB) : gmap Z InstitutionAccount.t :=
  filter (fun kv => InstitutionAccount.profile kv.2 = p) (accounts db).


(** ** Integrity constraints *)

(** What the field declarations make the database keep: every foreign key
    points at a stored row, and [UserProfile.user], being one-to-one, is
    unique. *)
Record consistent (db : DB) : Prop := mkConsistent {
  profile_user : forall k p,
    profiles db !! k = Some p -> is_Some (users db !! UserProfile.user p);
  linked_email_profile : forall k e,
    linked_emails db !! k = Some e ->
    is_Some (profiles db !! LinkedEmail.profile e);
  account_profile : forall k a,
    accounts db !! k = Some a ->
    is_Some (profiles db !! InstitutionAccount.profile a);
  account_institution : forall k a,
    accounts db !! k = Some a ->
    is_Some (institutions db !! InstitutionAccount.institution a);
  profile_user_unique : forall k1 k2 p1 p2,
    profiles db !! k1 = Some p1 -> profiles db !! k2 = Some p2 ->
    UserProfile.user p1 = UserProfile.user p2 -> k1 = k2 }.

(** ** Sample data *)

Module Sample.

(** A store that accepts every statement. *)
Definition healthy_store : DB -> Statement -> option Exn := fun _ _ => None.

(** A store that accepts everything but an insert of a linked email. *)
Definition no_email_store : DB -> Statement -> option Exn := fun _ s =>
  match s with
  | InsertLinkedEmail _ => Some DatabaseError
  | _ => None
  end.

(** Day 738000 is 2021-07-29, day 700000 is 1917-07-15. *)
Definition morning (day : Z) : datetime.t := datetime.mk day 9 0 0 0.
Definition evening (day : Z) : datetime.t := datetime.mk day 21 30 0 0.

Definition alice : Obj User.t :=
  mkObj 1 (User.mk "alice" "a@x.com" (Some (morning 738000))).
Definition tmp_foo : Obj User.t :=
  mkObj 2 (User.mk "tmp-foo" "" (Some (evening 738000))).
Definition bob : Obj User.t :=
  mkObj 3 (User.mk "bob" "" (Some (morning 700000))).
Definition carol : Obj User.t :=
  mkObj 4 (User.mk "carol" "c@x.com" (Some (morning 738000))).

(** The users alice, tmp-foo and bob, just saved: nothing else is stored. *)
Definition db0 : DB :=
  mkDB {[ pk alice := fields alice; pk tmp_foo := fields tmp_foo;
          pk bob := fields bob ]} ∅ ∅ ∅ ∅.

(** [db0] after alice got her profile. *)
Definition db1 : DB :=
  mkDB (users db0) {[ 1 := UserProfile.mk (pk alice) ]} ∅ ∅ ∅.

(** A database in use: alice and tmp-foo have profiles, linked emails and,
    for tmp-foo, an account at the one institution; bob has nothing yet. *)
Definition db2 : DB :=
  mkDB (users db0)
       {[ 1 := UserProfile.mk (pk alice); 2 := UserProfile.mk (pk tmp_foo) ]}
       {[ 1 := LinkedEmail.mk 1 "a@x.com" true;
          2 := LinkedEmail.mk 2 "foo@x.com" false ]}
       {[ 1 := Institution.mk "Yale" "yale" "https://cas.x/" ]}
       {[ 1 := InstitutionAccount.mk 2 1 "foo1" ]}.

(** alice with her profile, and carol just saved. *)
Definition db3 : DB :=
  mkDB {[ pk alice := fields alice; pk carol := fields carol ]}
       {[ 1 := UserProfile.mk (pk alice) ]} ∅ ∅ ∅.


End Sample.

Section Receivers.

(** The store can refuse a statement for reasons of its own (connection
    lost, value too long for the column, ...). *)
Variable store_fault : DB -> Statement -> option Exn.

(** [settings.PASSWORD_RESET_TIMEOUT_DAYS]. *)
Variable PASSWORD_RESET_TIMEOUT_DAYS : Z.

(** [hasattr(get_user_model(), 'date_joined')]. *)
Variable has_date_joined : bool.

(** Whether the LIKE of the database in use tells upper case from lower:
    [false] on SQLite, [true] on the other backends. *)
Variable like_is_case_sensitive : bool.

(** *** Lookups *)

(** [username__startswith='tmp-', date_joined__lt=cutoff] on one row.  A row
    without a [date_joined] value is not less than anything. *)
Definition is_old_tmp_user (cutoff : datetime.t) (u : User.t) : bool :=
  startswith like_is_case_sensitive "tmp-" (User.username u) &&
  match User.date_joined u with
  | Some d => datetime.ltb d cutoff
  | None => false
  end.

(** *** Managers *)

(** [UserProfile.objects.create(user=user)].  The one-to-one field is a
    foreign key with a unique index. *)
Definition UserProfile_objects_create (user : Obj User.t)
  : M (Obj UserProfile.t) := fun db =>
  let row := UserProfile.mk (pk user) in
  match store_fault db (InsertUserProfile row) with
  | Some e => (Raise e, db)
  | None =>
    if decide (users db !! pk user = None) then (Raise IntegrityError, db)
    else if decide (profiles_of (pk user) db = ∅) then
      let k := next_pk (profiles db) in
      (Return (mkObj k row),
       mkDB (users db) (<[k := row]> (profiles db)) (linked_emails db)
            (institutions db) (accounts db))
    else (Raise IntegrityError, db)
  end.

(** [LinkedEmail.objects.create(profile=profile, address=address,
    is_verified=is_verified)].  No field of the model is unique. *)
Definition LinkedEmail_objects_create (profile : Obj UserProfile.t)
    (address : string) (is_verified : bool) : M (Obj LinkedEmail.t) := fun db =>
  let row := LinkedEmail.mk (pk profile) address is_verified in
  match store_fault db (InsertLinkedEmail row) with
  | Some e => (Raise e, db)
  | None =>
    if decide (profiles db !! pk profile = None) then (Raise IntegrityError, db)
    else
      let k := next_pk (linked_emails db) in
      (Return (mkObj k row),
       mkDB (users db) (profiles db) (<[k := row]> (linked_emails db))
            (institutions db) (accounts db))
  end.

(** [user_model.objects.filter(...).delete()]: the selected users go, and with
    them, by [on_delete=CASCADE], their profiles and those profiles' linked
    emails and institution accounts.  The deletion is one transaction. *)
Definition User_objects_filter_delete (selected : User.t -> bool) : M unit :=
  fun db =>
  let doomed := filter (fun kv => selected kv.2 = true) (users db) in
  match store_fault db (DeleteUsers (map_to_list doomed).*1) with
  | Some e => (Raise e, db)
  | None =>
    let orphans :=
      filter (fun kv => is_Some (doomed !! UserProfile.user kv.2)) (profiles db) in
    (Return tt,
     mkDB (filter (fun kv => selected kv.2 = false) (users db))
          (filter (fun kv => doomed !! UserProfile.user kv.2 = None) (profiles db))
          (filter (fun kv => orphans !! LinkedEmail.profile kv.2 = None)
                  (linked_emails db))
          (institutions db)
          (filter (fun kv => orphans !! InstitutionAccount.profile kv.2 = None)
                  (accounts db)))
  end.

(** *** The receivers of [post_save] *)

(** [create_user_profile(sender, instance, created, **kwargs)] *)
Definition create_user_profile (instance : Obj User.t) (created : bool)
  : M unit :=
  if created then
    profile <~ UserProfile_objects_create instance ;;
    if obj_truthy profile && str_truthy (User.email (fields instance)) then
      LinkedEmail_objects_create profile (User.email (fields instance)) true ;;;
      ret tt
    else ret tt
  else ret tt.

(** [tmp_expire_date], from the value [now] that [timezone.now()] gave. *)
Definition tmp_expire_date (now : datetime.t) : Outcome datetime.t :=
  match datetime.timedelta PASSWORD_RESET_TIMEOUT_DAYS with
  | Return timeout_days =>
    match datetime.sub now timeout_days with
    | Return d => Return (datetime.replace_midnight d)
    | Raise e => Raise e
    end
  | Raise e => Raise e
  end.

(** [clear_old_tmp_users(sender, instance, created, **kwargs)], run at the
    time [now]. *)
Definition clear_old_tmp_users (now : datetime.t) (instance : Obj User.t)
    (created : bool) : M unit :=
  if created then
    if has_date_joined then
      cutoff <~ lift (tmp_expire_date now) ;;
      User_objects_filter_delete (is_old_tmp_user cutoff)
    else ret tt
  else ret tt.

(** [post_save.send(sender, instance, created)]: the receivers run in the
    order they were connected, and the first exception stops the dispatch. *)
Definition post_save (now : datetime.t) (instance : Obj User.t)
    (created : bool) : M unit :=
  create_user_profile instance created ;;;
  clear_old_tmp_users now instance created.

(** *** String renderings *)

(** [UserProfile.__str__] *)
Definition UserProfile_str (self : Obj UserProfile.t) : M string :=
  try_except
    (user <~ get_related users (UserProfile.user (fields self)) ;;
     ret (if str_truthy (User.email (fields user))
          then User.email (fields user)
          else User.username (fields user)))
    (ret "NULL").

(** [LinkedEmail.__str__] *)
Definition LinkedEmail_str (self : Obj LinkedEmail.t) : M string :=
  try_except
    (profile <~ get_related profiles (LinkedEmail.profile (fields self)) ;;
     s <~ UserProfile_str profile ;;
     ret (s +:+ " | " +:+ LinkedEmail.address (fields self)))
    (ret "NULL").

(** [Institution.__str__] *)
Definition Institution_str (self : Obj Institution.t) : M string :=
  try_except (ret (Institution.slug (fields self))) (ret "NULL").

(** [InstitutionAccount.__str__] *)
Definition InstitutionAccount_str (self : Obj InstitutionAccount.t) : M string :=
  try_except
    (profile <~ get_related profiles (InstitutionAccount.profile (fields self)) ;;
     institution <~
       get_related institutions (InstitutionAccount.institution (fields self)) ;;
     p <~ UserProfile_str profile ;;
     i <~ Institution_str institution ;;
     ret (p +:+ " | " +:+ i +:+ " | account"))
    (ret "NULL").

(** ** Properties *)

(** *** Primary keys *)

Lemma foldr_max_upper_bound (l : list Z) (k : Z) :
  k ∈ l -> k <= foldr Z.max 0 l.
Proof.
  induction l as [|x l IH]; intros Hk.
  - by apply elem_of_nil in Hk.
  - apply elem_of_cons in Hk as [->|Hk]; simpl; [lia|].
    specialize (IH Hk). lia.
Qed.

Lemma next_pk_above {R} (table : gmap Z R) (k : Z) (r : R) :
  table !! k = Some r -> k < next_pk table.
Proof.
  intros Hk. unfold next_pk.
  assert (k ∈ (map_to_list table).*1) as Hin.
  { apply list_elem_of_fmap. exists (k, r). split; [done|].
    by apply elem_of_map_to_list. }
  apply foldr_max_upper_bound in Hin. lia.
Qed.

Lemma next_pk_fresh {R} (table : gmap Z R) : table !! next_pk table = None.
Proof.
  destruct (table !! next_pk table) as [r|] eqn:Hk; [|done].
  apply next_pk_above in Hk. lia.
Qed.

(** *** The managers *)

Lemma UserProfile_objects_create_ok (user : Obj User.t) (db : DB) :
  store_fault db (InsertUserProfile (UserProfile.mk (pk user))) = None ->
  is_Some (users db !! pk user) ->
  profiles_of (pk user) db = ∅ ->
  UserProfile_objects_create user db =
    (Return (mkObj (next_pk (profiles db)) (UserProfile.mk (pk user))),
     mkDB (users db)
          (<[next_pk (profiles db) := UserProfile.mk (pk user)]> (profiles db))
          (linked_emails db) (institutions db) (accounts db)).
Proof.
  intros Hf [u Hu] Hp. unfold UserProfile_objects_create. rewrite Hf.
  rewrite decide_False by (rewrite Hu; discriminate).
  by rewrite decide_True.
Qed.

(** A profile creation that raises leaves the database as it was; one that
    returns has added the returned row, and nothing else. *)
Lemma UserProfile_objects_create_inv (user : Obj User.t) (db : DB) :
  match UserProfile_objects_create user db with
  | (Return p, db') =>
      fields p = UserProfile.mk (pk user) /\
      profiles db !! pk p = None /\
      db' = mkDB (users db) (<[pk p := fields p]> (profiles db))
                 (linked_emails db) (institutions db) (accounts db)
  | (Raise _, db') => db' = db
  end.
Proof.
  unfold UserProfile_objects_create.
  destruct (store_fault _ _); [done|].
  repeat case_decide; try done.
  simpl. split_and!; [done|apply next_pk_fresh|done].
Qed.

Lemma LinkedEmail_objects_create_ok (profile : Obj UserProfile.t)
    (address : string) (is_verified : bool) (db : DB) :
  store_fault db
    (InsertLinkedEmail (LinkedEmail.mk (pk profile) address is_verified)) = None ->
  is_Some (profiles db !! pk profile) ->
  LinkedEmail_objects_create profile address is_verified db =
    (Return (mkObj (next_pk (linked_emails db))
                   (LinkedEmail.mk (pk profile) address is_verified)),
     mkDB (users db) (profiles db)
          (<[next_pk (linked_emails db) :=
               LinkedEmail.mk (pk profile) address is_verified]> (linked_emails db))
          (institutions db) (accounts db)).
Proof.
  intros Hf [p Hp]. unfold LinkedEmail_objects_create. rewrite Hf.
  by rewrite decide_False by (rewrite Hp; discriminate).
Qed.

Lemma LinkedEmail_objects_create_inv (profile : Obj UserProfile.t)
    (address : string) (is_verified : bool) (db : DB) :
  match LinkedEmail_objects_create profile address is_verified db with
  | (Return e, db') =>
      fields e = LinkedEmail.mk (pk profile) address is_verified /\
      linked_emails db !! pk e = None /\
      db' = mkDB (users db) (profiles db)
                 (<[pk e := fields e]> (linked_emails db))
                 (institutions db) (accounts db)
  | (Raise _, db') => db' = db
  end.
Proof.
  unfold LinkedEmail_objects_create.
  destruct (store_fault _ _); [done|].
  case_decide; [done|].
  simpl. split_and!; [done|apply next_pk_fresh|done].
Qed.

Lemma LinkedEmail_objects_create_frame (profile : Obj UserProfile.t)
    (address : string) (is_verified : bool) (db : DB) :
  let db' := (LinkedEmail_objects_create profile address is_verified db).2 in
  users db' = users db /\ profiles db' = profiles db.
Proof.
  pose proof (LinkedEmail_objects_create_inv profile address is_verified db) as H.
  destruct (LinkedEmail_objects_create _ _ _ _) as [[e|e] db'];
    simpl; [destruct H as (_ & _ & ->)|subst]; done.
Qed.

(** *** Integrity constraints *)

(** In a consistent database a key that is not yet a user's has no profile:
    a user that is inserted under it starts without one. *)
Lemma new_user_has_no_profile (db : DB) (u : Z) :
  consistent db -> users db !! u = None -> profiles_of u db = ∅.
Proof.
  intros Hc Hu. apply map_empty. intros k.
  apply map_lookup_filter_None. right. intros p Hp Hup. simpl in Hup.
  destruct (profile_user db Hc k p Hp) as [x Hx].
  rewrite Hup, Hu in Hx. done.
Qed.

Lemma UserProfile_objects_create_consistent (user : Obj User.t) (db : DB) :
  consistent db -> consistent (UserProfile_objects_create user db).2.
Proof.
  intros Hc. unfold UserProfile_objects_create.
  destruct (store_fault _ _); [done|].
  destruct (decide (users db !! pk user = None)) as [|Hu]; [done|].
  destruct (decide (profiles_of (pk user) db = ∅)) as [Hnone|]; [|done].
  pose proof (next_pk_fresh (profiles db)) as Hfresh.
  destruct Hc as [Hpu Hep Hap Hai Huniq]. constructor; simpl.
  - intros k p [[<- <-]|[_ Hk]]%lookup_insert_Some; simpl.
    + by destruct (users db !! pk user).
    + eauto.
  - intros k e He. destruct (Hep k e He) as [p Hp].
    exists p. rewrite lookup_insert_ne; [done|]. congruence.
  - intros k a Ha. destruct (Hap k a Ha) as [p Hp].
    exists p. rewrite lookup_insert_ne; [done|]. congruence.
  - done.
  - assert (forall k p, profiles db !! k = Some p ->
                        UserProfile.user p <> pk user) as Hother.
    { intros k p Hk Hup.
      assert (profiles_of (pk user) db !! k = Some p) as Hin
        by by apply map_lookup_filter_Some_2.
      rewrite Hnone in Hin. done. }
    intros k1 k2 p1 p2 [[<- <-]|[_ H1]]%lookup_insert_Some
      [[<- <-]|[_ H2]]%lookup_insert_Some Heq; simpl in *.
    + done.
    + by destruct (Hother k2 p2 H2).
    + by destruct (Hother k1 p1 H1).
    + eauto.
Qed.

Lemma LinkedEmail_objects_create_consistent (profile : Obj UserProfile.t)
    (address : string) (is_verified : bool) (db : DB) :
  consistent db ->
  consistent (LinkedEmail_objects_create profile address is_verified db).2.
Proof.
  intros Hc. unfold LinkedEmail_objects_create.
  destruct (store_fault _ _); [done|].
  destruct (decide (profiles db !! pk profile = None)) as [|Hp]; [done|].
  destruct Hc as [Hpu Hep Hap Hai Huniq]. constructor; simpl; try done.
  intros k e [[<- <-]|[_ Hk]]%lookup_insert_Some; simpl.
  - by destruct (profiles db !! pk profile).
  - eauto.
Qed.

Lemma User_objects_filter_delete_consistent (selected : User.t -> bool)
    (db : DB) :
  consistent db -> consistent (User_objects_filter_delete selected db).2.
Proof.
  intros Hc. unfold User_objects_filter_delete.
  destruct (store_fault _ _); [done|].
  destruct Hc as [Hpu Hep Hap Hai Huniq].
  set (doomed := filter (fun kv : Z * User.t => selected kv.2 = true) (users db)).
  set (orphans := filter (fun kv : Z * UserProfile.t =>
                            is_Some (doomed !! UserProfile.user kv.2))
                         (profiles db)).
  assert (forall k p, profiles db !! k = Some p -> orphans !! k = None ->
                      doomed !! UserProfile.user p = None) as Hkept.
  { intros k p Hk Ho. apply eq_None_not_Some. intros Hd.
    assert (orphans !! k = Some p) as Hin by by apply map_lookup_filter_Some_2.
    congruence. }
  constructor; simpl.
  - intros k p [Hk Hd]%map_lookup_filter_Some. simpl in Hd.
    destruct (Hpu k p Hk) as [u Hu]. exists u.
    apply map_lookup_filter_Some_2; [done|]. simpl.
    destruct (selected u) eqn:Hsel; [|done].
    assert (doomed !! UserProfile.user p = Some u) as Hin
      by by apply map_lookup_filter_Some_2.
    congruence.
  - intros k e [Hk Ho]%map_lookup_filter_Some. simpl in Ho.
    destruct (Hep k e Hk) as [p Hp]. exists p.
    apply map_lookup_filter_Some_2; [done|]. simpl. eauto.
  - intros k a [Hk Ho]%map_lookup_filter_Some. simpl in Ho.
    destruct (Hap k a Hk) as [p Hp]. exists p.
    apply map_lookup_filter_Some_2; [done|]. simpl. eauto.
  - intros k a [Hk _]%map_lookup_filter_Some. eauto.
  - intros k1 k2 p1 p2 [H1 _]%map_lookup_filter_Some
      [H2 _]%map_lookup_filter_Some. eauto.
Qed.

(** X17.  The dispatch of post_save keeps the database consistent, whether
    it returns or raises: afterwards every foreign key still points at a
    stored row and no user has two profiles. *)
Lemma post_save_consistent (now : datetime.t) (instance : Obj User.t)
    (created : bool) (db : DB) :
  consistent db -> consistent (post_save now instance created db).2.
Proof.
  intros Hc. unfold post_save, create_user_profile, clear_old_tmp_users, bind,
    lift, ret.
  destruct created; [|done].
  pose proof (UserProfile_objects_create_consistent instance db Hc) as Hc1.
  destruct (UserProfile_objects_create instance db) as [[p|e] db1]; [|done].
  simpl in Hc1.
  destruct (obj_truthy p && _).
  - pose proof (LinkedEmail_objects_create_consistent p
      (User.email (fields instance)) true db1 Hc1) as Hc2.
    destruct (LinkedEmail_objects_create _ _ _ _) as [[o|e] db2]; [|done].
    simpl in Hc2. destruct has_date_joined; [|done].
    destruct (tmp_expire_date now) as [cutoff|e]; [|done].
    by apply User_objects_filter_delete_consistent.
  - destruct has_date_joined; [|done].
    destruct (tmp_expire_date now) as [cutoff|e]; [|done].
    by apply User_objects_filter_delete_consistent.
Qed.

(** *** Profile bootstrap *)

(** Whatever happens to the linked email, the receiver leaves the users and
    the profiles as profile creation left them. *)
Lemma create_user_profile_profiles (instance : Obj User.t) (db : DB) :
  profiles (create_user_profile instance true db).2 =
  profiles (UserProfile_objects_create instance db).2.
Proof.
  unfold create_user_profile, bind.
  destruct (UserProfile_objects_create instance db) as [[p|e] db1]; [|done].
  destruct (obj_truthy p && _); [|done].
  pose proof (LinkedEmail_objects_create_frame p
    (User.email (fields instance)) true db1) as [_ Hp].
  destruct (LinkedEmail_objects_create _ _ _ _) as [[e|e] db2]; done.
Qed.

(** A user that has a profile never gets another one from the receiver: the
    unique index of the one-to-one field refuses the insert. *)
Lemma create_user_profile_replay (instance : Obj User.t) (db : DB) :
  profiles_of (pk instance) db <> ∅ ->
  profiles (create_user_profile instance true db).2 = profiles db.
Proof.
  intros Hp. rewrite create_user_profile_profiles.
  unfold UserProfile_objects_create.
  destruct (store_fault _ _); [done|].
  repeat case_decide; done.
Qed.

(** C1.  At a post_save with [created] set, for a user that is stored and has
    no profile yet, and with the store accepting the insert: the receiver adds
    exactly one row to the profile table, that row's user is the new user, it
    is the user's only profile, and delivering the same event once more adds
    no second one.  The receiver itself looks nothing up: it is guarded by
    [created] alone. *)
Theorem create_user_profile_exactly_one_profile
    (instance : Obj User.t) (db : DB) :
  is_Some (users db !! pk instance) ->
  profiles_of (pk instance) db = ∅ ->
  store_fault db (InsertUserProfile (UserProfile.mk (pk instance))) = None ->
  let db' := (create_user_profile instance true db).2 in
  (exists k,
     profiles db !! k = None /\
     profiles db' = <[k := UserProfile.mk (pk instance)]> (profiles db) /\
     profiles_of (pk instance) db' = {[k := UserProfile.mk (pk instance)]}) /\
  size (profiles db') = S (size (profiles db)) /\
  size (profiles_of (pk instance) db') = 1%nat /\
  profiles (create_user_profile instance true db').2 = profiles db'.
Proof.
  intros Hu Hnone Hf db'.
  assert (profiles db' =
          <[next_pk (profiles db) := UserProfile.mk (pk instance)]> (profiles db))
    as Hins.
  { unfold db'. rewrite create_user_profile_profiles.
    by rewrite UserProfile_objects_create_ok. }
  assert (profiles_of (pk instance) db' =
          {[next_pk (profiles db) := UserProfile.mk (pk instance)]}) as Hof.
  { unfold profiles_of in *. rewrite Hins.
    rewrite map_filter_insert_True by done.
    by rewrite Hnone, insert_empty. }
  split_and!.
  - exists (next_pk (profiles db)). split_and!; [apply next_pk_fresh|done|done].
  - rewrite Hins. apply map_size_insert_None, next_pk_fresh.
  - rewrite Hof. apply map_size_singleton.
  - apply create_user_profile_replay. rewrite Hof.
    apply insert_non_empty.
Qed.

(** *** Verified-email seeding *)

Lemma str_truthy_nonempty (s : string) : str_truthy s = true <-> s <> "".
Proof. destruct s; simpl; split; (done || intros; congruence). Qed.

Lemma str_truthy_empty (s : string) : str_truthy s = false <-> s = "".
Proof. destruct s; simpl; split; (done || intros; congruence). Qed.

(** C2.  At a post_save with [created] set: when the user's email is not
    empty, profile creation returned the profile [p] and the store accepts
    the insert, the receiver returns and has added exactly one linked email,
    whose profile is [p], whose address is the user's email and which is
    verified; when the email is empty the linked emails are untouched; and
    when profile creation raised, no linked email is created and the
    exception is the receiver's. *)
Theorem create_user_profile_seeds_verified_email
    (instance : Obj User.t) (db : DB) :
  let address := User.email (fields instance) in
  let db' := (create_user_profile instance true db).2 in
  (address <> "" ->
   forall p db1,
     UserProfile_objects_create instance db = (Return p, db1) ->
     store_fault db1
       (InsertLinkedEmail (LinkedEmail.mk (pk p) address true)) = None ->
     (create_user_profile instance true db).1 = Return tt /\
     profiles db' !! pk p = Some (UserProfile.mk (pk instance)) /\
     size (linked_emails db') = S (size (linked_emails db)) /\
     exists k,
       linked_emails db !! k = None /\
       linked_emails db' =
         <[k := LinkedEmail.mk (pk p) address true]> (linked_emails db)) /\
  (address = "" -> linked_emails db' = linked_emails db) /\
  (forall e db1,
     UserProfile_objects_create instance db = (Raise e, db1) ->
     create_user_profile instance true db = (Raise e, db) /\
     linked_emails db' = linked_emails db).
Proof.
  intros address db'. split_and!.
  - intros Haddr p db1 Hcreate Hf.
    pose proof (UserProfile_objects_create_inv instance db) as Hinv.
    rewrite Hcreate in Hinv. destruct Hinv as (Hrow & Hfresh & ->).
    apply str_truthy_nonempty in Haddr.
    unfold db', create_user_profile, bind. rewrite Hcreate.
    fold address. rewrite Haddr. simpl.
    rewrite LinkedEmail_objects_create_ok; simpl.
    + split_and!; [done|by rewrite lookup_insert_eq, Hrow| |].
      * apply map_size_insert_None, next_pk_fresh.
      * exists (next_pk (linked_emails db)). split; [apply next_pk_fresh|done].
    + done.
    + rewrite lookup_insert_eq. by eexists.
  - intros Haddr. unfold db', create_user_profile, bind.
    pose proof (UserProfile_objects_create_inv instance db) as Hinv.
    destruct (UserProfile_objects_create instance db) as [[p|e] db1].
    + destruct Hinv as (_ & _ & ->).
      apply str_truthy_empty in Haddr. fold address. rewrite Haddr.
      by rewrite andb_false_r.
    + by subst.
  - intros e db1 Hcreate.
    pose proof (UserProfile_objects_create_inv instance db) as Hinv.
    rewrite Hcreate in Hinv. subst db1.
    unfold db', create_user_profile, bind. by rewrite Hcreate.
Qed.

(** *** Dates *)

(** On valid datetimes [ltb] is the strict order of the points in time. *)
Lemma datetime_ltb_lt (a b : datetime.t) :
  datetime.valid a -> datetime.valid b ->
  datetime.ltb a b = true <->
  datetime.total_microseconds a < datetime.total_microseconds b.
Proof.
  unfold datetime.valid, datetime.ltb, datetime.total_microseconds.
  destruct a as [oa ha ma sa ua], b as [ob hb mb sb ub]; simpl.
  intros (Hoa & Hha & Hma & Hsa & Hua) (Hob & Hhb & Hmb & Hsb & Hub).
  repeat (match goal with
          | |- context [?x <? ?y] => destruct (Z.ltb_spec x y)
          end); split; intros; try done; try lia.
Qed.

(** Nothing that happened on the day of a midnight, or on a later day, is
    before that midnight. *)
Lemma datetime_ltb_midnight (d : datetime.t) (o : Z) :
  datetime.valid d -> o <= datetime.ordinal d ->
  datetime.ltb d (datetime.mk o 0 0 0 0) = false.
Proof.
  unfold datetime.valid, datetime.ltb. simpl.
  intros (_ & Hh & Hm & Hs & Hu) Ho.
  repeat (match goal with
          | |- context [?x <? ?y] => destruct (Z.ltb_spec x y)
          end); try done; lia.
Qed.

(** *** Retention sweep *)

(** A prefix as it stands is a prefix when case is ignored. *)
Lemma prefix_iprefix (p s : string) :
  String.prefix p s = true -> iprefix p s = true.
Proof.
  revert s. induction p as [|a p IH]; intros [|b s]; simpl; try done.
  destruct (Ascii.ascii_dec a b) as [->|]; [|done].
  intros Hp. rewrite Ascii.eqb_refl. simpl. by apply IH.
Qed.

(** So a name that starts with the prefix as written is matched by the
    lookup on every backend. *)
Lemma startswith_of_prefix (p s : string) :
  String.prefix p s = true -> startswith like_is_case_sensitive p s = true.
Proof.
  intros Hp. unfold startswith. destruct like_is_case_sensitive; [done|].
  by apply prefix_iprefix.
Qed.

(** What the lookup for "tmp-" matches on SQLite: t or T, m or M, p or P,
    then a hyphen. *)
Lemma iprefix_tmp_spec (s : string) :
  iprefix "tmp-" s = true <->
  exists a b c rest,
    s = String a (String b (String c (String "-" rest))) /\
    (a = "t" \/ a = "T")%char /\ (b = "m" \/ b = "M")%char /\
    (c = "p" \/ c = "P")%char.
Proof.
  assert (forall x, ascii_lower x = "t"%char -> x = "t"%char \/ x = "T"%char)
    as Ht by (intros [[] [] [] [] [] [] [] []]; vm_compute; intros [=]; auto).
  assert (forall x, ascii_lower x = "m"%char -> x = "m"%char \/ x = "M"%char)
    as Hm by (intros [[] [] [] [] [] [] [] []]; vm_compute; intros [=]; auto).
  assert (forall x, ascii_lower x = "p"%char -> x = "p"%char \/ x = "P"%char)
    as Hp by (intros [[] [] [] [] [] [] [] []]; vm_compute; intros [=]; auto).
  assert (forall x, ascii_lower x = "-"%char -> x = "-"%char)
    as Hh by (intros [[] [] [] [] [] [] [] []]; vm_compute; intros [=]; auto).
  split.
  - destruct s as [|a [|b [|c [|d rest]]]]; cbn [iprefix];
      rewrite ?andb_false_r; try done.
    rewrite !andb_true_iff, !Ascii.eqb_eq.
    intros (Ha & Hb & Hc & Hd & _).
    symmetry in Ha, Hb, Hc, Hd.
    change (ascii_lower "t") with "t"%char in Ha.
    change (ascii_lower "m") with "m"%char in Hb.
    change (ascii_lower "p") with "p"%char in Hc.
    change (ascii_lower "-") with "-"%char in Hd.
    apply Hh in Hd as ->. exists a, b, c, rest.
    split_and!; [done|by apply Ht|by apply Hm|by apply Hp].
  - intros (a & b & c & rest & -> & Ha & Hb & Hc).
    destruct Ha as [-> | ->], Hb as [-> | ->], Hc as [-> | ->]; reflexivity.
Qed.



(** The users that a bulk delete leaves: all of them when the store refuses
    the statement, the ones that were not selected otherwise. *)
Lemma User_objects_filter_delete_users (selected : User.t -> bool) (db : DB)
    (k : Z) :
  users (User_objects_filter_delete selected db).2 !! k = users db !! k \/
  (User_objects_filter_delete selected db).1 = Return tt /\
  users (User_objects_filter_delete selected db).2 =
    filter (fun kv => selected kv.2 = false) (users db).
Proof.
  unfold User_objects_filter_delete.
  destruct (store_fault _ _); simpl; [by left|by right].
Qed.

Lemma User_objects_filter_delete_ok (selected : User.t -> bool) (db : DB) :
  (forall pks, store_fault db (DeleteUsers pks) = None) ->
  (User_objects_filter_delete selected db).1 = Return tt /\
  users (User_objects_filter_delete selected db).2 =
    filter (fun kv => selected kv.2 = false) (users db).
Proof.
  intros Hf. unfold User_objects_filter_delete. by rewrite Hf.
Qed.

(** A user that is not selected survives a bulk delete. *)
Lemma User_objects_filter_delete_spares (selected : User.t -> bool) (db : DB)
    (k : Z) (u : User.t) :
  users db !! k = Some u -> selected u = false ->
  users (User_objects_filter_delete selected db).2 !! k = Some u.
Proof.
  intros Hk Hsel.
  destruct (User_objects_filter_delete_users selected db k) as [->|[_ ->]];
    [done|].
  by apply map_lookup_filter_Some_2.
Qed.

Lemma tmp_expire_date_in_range (now : datetime.t) :
  Z.abs PASSWORD_RESET_TIMEOUT_DAYS <= 999999999 ->
  1 <= datetime.ordinal now - PASSWORD_RESET_TIMEOUT_DAYS <= datetime.MAXORDINAL ->
  tmp_expire_date now =
    Return (datetime.mk (datetime.ordinal now - PASSWORD_RESET_TIMEOUT_DAYS)
                        0 0 0 0).
Proof.
  intros Hw Hr. unfold tmp_expire_date, datetime.timedelta, datetime.sub.
  replace (Z.abs _ <=? _) with true by (symmetry; apply Z.leb_le; lia).
  simpl.
  replace (0 <? _) with true by (symmetry; apply Z.ltb_lt; lia).
  replace (_ <=? _) with true by (symmetry; apply Z.leb_le; lia).
  done.
Qed.

(** The cutoff, whenever there is one, is a midnight, [window] days before
    the day of [now]. *)
Lemma tmp_expire_date_midnight (now cutoff : datetime.t) :
  tmp_expire_date now = Return cutoff ->
  cutoff = datetime.mk (datetime.ordinal now - PASSWORD_RESET_TIMEOUT_DAYS)
                       0 0 0 0.
Proof.
  unfold tmp_expire_date, datetime.timedelta, datetime.sub.
  destruct (Z.abs _ <=? _); [|done]. simpl.
  destruct (_ && _); [|done]. by intros [= <-].
Qed.



(** C5, as the code has it.  With a window of at least one day, a user whose
    username starts with "tmp-" and who joined on day D is still there after
    any sweep run on day D or on day D+1. *)
Theorem clear_old_tmp_users_day_floor_grace
    (now : datetime.t) (instance : Obj User.t) (created : bool) (db : DB)
    (k : Z) (u : User.t) (joined : datetime.t) :
  1 <= PASSWORD_RESET_TIMEOUT_DAYS ->
  users db !! k = Some u ->
  String.prefix "tmp-" (User.username u) = true ->
  User.date_joined u = Some joined ->
  datetime.valid joined ->
  datetime.ordinal now = datetime.ordinal joined \/
  datetime.ordinal now = datetime.ordinal joined + 1 ->
  users (clear_old_tmp_users now instance created db).2 !! k = Some u.
Proof.
  intros Hw Hk _ Hj Hv Hday. unfold clear_old_tmp_users, bind, lift.
  destruct created; [|done]. destruct has_date_joined; [|done].
  destruct (tmp_expire_date now) as [cutoff|e] eqn:Hcut; [|done].
  apply tmp_expire_date_midnight in Hcut. subst cutoff.
  apply User_objects_filter_delete_spares; [done|].
  unfold is_old_tmp_user. rewrite Hj, datetime_ltb_midnight by (done || lia).
  apply andb_false_r.
Qed.

(** C6.  On a user model without [date_joined] the sweep returns at once:
    no exception, and the database is as it was. *)
Theorem clear_old_tmp_users_without_date_joined
    (now : datetime.t) (instance : Obj User.t) (created : bool) (db : DB) :
  has_date_joined = false ->
  clear_old_tmp_users now instance created db = (Return tt, db).
Proof.
  intros Hcap. unfold clear_old_tmp_users. rewrite Hcap. by destruct created.
Qed.

(** *** Updates *)

(** C8.  At a post_save with [created] false neither receiver does anything:
    each returns, and so does the dispatch, with the database as it was, so
    no profile and no linked email is created and no user is deleted. *)
Theorem post_save_not_created_changes_nothing
    (now : datetime.t) (instance : Obj User.t) (db : DB) :
  create_user_profile instance false db = (Return tt, db) /\
  clear_old_tmp_users now instance false db = (Return tt, db) /\
  post_save now instance false db = (Return tt, db).
Proof. done. Qed.

(** *** Failures *)

(** C9.  The receiver is not atomic: when profile creation returned the
    profile [p] and the creation of the linked email then raises [e], the
    receiver raises [e], and so does the dispatch, while the profile [p] of
    the new user is in the database that is left. *)
Theorem create_user_profile_not_atomic
    (now : datetime.t) (instance : Obj User.t) (db db1 db2 : DB)
    (p : Obj UserProfile.t) (e : Exn) :
  User.email (fields instance) <> "" ->
  UserProfile_objects_create instance db = (Return p, db1) ->
  LinkedEmail_objects_create p (User.email (fields instance)) true db1 =
    (Raise e, db2) ->
  create_user_profile instance true db = (Raise e, db2) /\
  post_save now instance true db = (Raise e, db2) /\
  profiles db !! pk p = None /\
  profiles db2 !! pk p = Some (UserProfile.mk (pk instance)) /\
  linked_emails db2 = linked_emails db.
Proof.
  intros Haddr Hcreate Hemail. apply str_truthy_nonempty in Haddr.
  assert (create_user_profile instance true db = (Raise e, db2)) as Hrun.
  { unfold create_user_profile, bind. rewrite Hcreate, Haddr. simpl.
    by rewrite Hemail. }
  pose proof (UserProfile_objects_create_inv instance db) as Hinv.
  rewrite Hcreate in Hinv. destruct Hinv as (Hrow & Hfresh & ->).
  pose proof (LinkedEmail_objects_create_inv p
    (User.email (fields instance)) true
    (mkDB (users db) (<[pk p := fields p]> (profiles db))
          (linked_emails db) (institutions db) (accounts db))) as Hinv.
  rewrite Hemail in Hinv. subst db2. simpl.
  split_and!; [done| |done| |done].
  - unfold post_save, bind. by rewrite Hrun.
  - by rewrite lookup_insert_eq, Hrow.
Qed.

(** *** No uniqueness on linked emails *)

(** C10.  Nothing in the model makes a linked email unique: with the store
    accepting the inserts, creating the same verified address twice for one
    stored profile returns both times, and the table then holds two rows,
    under different keys, with that profile, that address and
    [is_verified = True]. *)
Theorem LinkedEmail_address_not_unique
    (profile : Obj UserProfile.t) (address : string) (db : DB) :
  is_Some (profiles db !! pk profile) ->
  (forall db' row, store_fault db' (InsertLinkedEmail row) = None) ->
  let r1 := LinkedEmail_objects_create profile address true db in
  let r2 := LinkedEmail_objects_create profile address true r1.2 in
  exists e1 e2,
    r1.1 = Return e1 /\ r2.1 = Return e2 /\ pk e1 <> pk e2 /\
    linked_emails_of (pk profile) r2.2 !! pk e1 =
      Some (LinkedEmail.mk (pk profile) address true) /\
    linked_emails_of (pk profile) r2.2 !! pk e2 =
      Some (LinkedEmail.mk (pk profile) address true).
Proof.
  intros Hp Hf r1 r2. unfold r2, r1.
  rewrite LinkedEmail_objects_create_ok by done. simpl.
  rewrite LinkedEmail_objects_create_ok by done. simpl.
  set (row := LinkedEmail.mk (pk profile) address true).
  set (k1 := next_pk (linked_emails db)).
  set (k2 := next_pk (<[k1 := row]> (linked_emails db))).
  assert (k1 < k2) as Hlt.
  { apply (next_pk_above _ k1 row). apply lookup_insert_eq. }
  assert (<[k2 := row]> (<[k1 := row]> (linked_emails db)) !! k1 = Some row)
    as H1.
  { rewrite lookup_insert_ne by lia. apply lookup_insert_eq. }
  assert (<[k2 := row]> (<[k1 := row]> (linked_emails db)) !! k2 = Some row)
    as H2 by apply lookup_insert_eq.
  eexists _, _. unfold linked_emails_of. simpl.
  split_and!; [done|done|simpl; lia| |]; by apply map_lookup_filter_Some_2.
Qed.

(** *** String renderings *)

(** C7.  No rendering raises, and none touches the database.  A profile whose
    user cannot be loaded, a linked email whose profile cannot be loaded and
    an institution account whose profile or institution cannot be loaded
    render as "NULL"; an institution renders as its slug, which cannot fail. *)
Theorem str_never_raises (db : DB) :
  (forall self : Obj UserProfile.t,
     exists s, UserProfile_str self db = (Return s, db) /\
       (users db !! UserProfile.user (fields self) = None -> s = "NULL")) /\
  (forall self : Obj LinkedEmail.t,
     exists s, LinkedEmail_str self db = (Return s, db) /\
       (profiles db !! LinkedEmail.profile (fields self) = None -> s = "NULL")) /\
  (forall self : Obj Institution.t,
     Institution_str self db = (Return (Institution.slug (fields self)), db)) /\
  (forall self : Obj InstitutionAccount.t,
     exists s, InstitutionAccount_str self db = (Return s, db) /\
       (profiles db !! InstitutionAccount.profile (fields self) = None \/
        institutions db !! InstitutionAccount.institution (fields self) = None ->
        s = "NULL")).
Proof.
  assert (forall self : Obj UserProfile.t,
     exists s, UserProfile_str self db = (Return s, db) /\
       (users db !! UserProfile.user (fields self) = None -> s = "NULL"))
    as Hprofile.
  { intros self. unfold UserProfile_str, try_except, bind, get_related, ret.
    destruct (users db !! _) as [u|]; eexists; (split; [done|]); done. }
  split_and!; [done| |done|].
  - intros self. unfold LinkedEmail_str, try_except, bind, get_related.
    destruct (profiles db !! _) as [p|]; [|by eexists].
    destruct (Hprofile (mkObj (LinkedEmail.profile (fields self)) p))
      as (s & -> & _).
    eexists. split; [done|]. done.
  - intros self. unfold InstitutionAccount_str, try_except, bind, get_related.
    destruct (profiles db !! _) as [p|]; [|by eexists].
    destruct (institutions db !! _) as [i|]; [|by eexists].
    destruct (Hprofile (mkObj (InstitutionAccount.profile (fields self)) p))
      as (s & -> & _).
    eexists. split; [done|]. by intros [?|?].
Qed.

(** Where the failure is one level down, it is recovered one level down: a
    linked email whose profile is stored, but whose profile's user is not,
    renders the profile as "NULL" and goes on. *)
Lemma LinkedEmail_str_of_profile_without_user
    (self : Obj LinkedEmail.t) (p : UserProfile.t) (db : DB) :
  profiles db !! LinkedEmail.profile (fields self) = Some p ->
  users db !! UserProfile.user p = None ->
  LinkedEmail_str self db =
    (Return ("NULL | " +:+ LinkedEmail.address (fields self)), db).
Proof.
  intros Hp Hu.
  unfold LinkedEmail_str, UserProfile_str, try_except, bind, get_related, ret.
  rewrite Hp. simpl. by rewrite Hu.
Qed.

(** ** Further properties of the receivers *)

(** *** What the bootstrap leaves alone *)

(** X1.  [create_user_profile] only ever adds rows, and only profiles and
    linked emails: users, institutions and institution accounts are as they
    were, and every profile and linked email that was stored still is,
    unchanged, whether the receiver returns or raises. *)
Theorem create_user_profile_only_adds
    (instance : Obj User.t) (created : bool) (db : DB) :
  let db' := (create_user_profile instance created db).2 in
  users db' = users db /\
  institutions db' = institutions db /\
  accounts db' = accounts db /\
  profiles db ⊆ profiles db' /\
  linked_emails db ⊆ linked_emails db'.
Proof.
  unfold create_user_profile, bind, ret. destruct created; [|done].
  pose proof (UserProfile_objects_create_inv instance db) as H1.
  destruct (UserProfile_objects_create instance db) as [[p|e] db1];
    [|by subst].
  destruct H1 as (_ & Hfresh & ->).
  assert (profiles db ⊆ <[pk p := fields p]> (profiles db)) as Hsub
    by by apply insert_subseteq.
  destruct (obj_truthy p && _); [|done].
  pose proof (LinkedEmail_objects_create_inv p (User.email (fields instance))
    true (mkDB (users db) (<[pk p := fields p]> (profiles db))
               (linked_emails db) (institutions db) (accounts db))) as H2.
  destruct (LinkedEmail_objects_create _ _ _ _) as [[o|e] db2]; simpl in *.
  - destruct H2 as (_ & Hfresh2 & ->). simpl.
    split_and!; try done. by apply insert_subseteq.
  - by subst.
Qed.

(** X2.  The receiver has no check of its own for an existing profile: at a
    created event for a stored user who already has a profile, with the store
    accepting the statement, it raises [IntegrityError] (the unique index of
    the one-to-one field) and leaves the database as it was. *)
Theorem create_user_profile_again_raises
    (instance : Obj User.t) (db : DB) :
  store_fault db (InsertUserProfile (UserProfile.mk (pk instance))) = None ->
  profiles_of (pk instance) db <> ∅ ->
  create_user_profile instance true db = (Raise IntegrityError, db).
Proof.
  intros Hf Hp. unfold create_user_profile, bind, UserProfile_objects_create.
  rewrite Hf. repeat case_decide; done.
Qed.


(** *** The sweep and its cascade *)

(** The sweep either leaves the database as it was, or is the bulk delete of
    the old temporary users for the cutoff it computed. *)
Lemma clear_old_tmp_users_shape (now : datetime.t) (instance : Obj User.t)
    (created : bool) (db : DB) :
  (clear_old_tmp_users now instance created db).2 = db \/
  exists cutoff,
    tmp_expire_date now = Return cutoff /\
    clear_old_tmp_users now instance created db =
      User_objects_filter_delete (is_old_tmp_user cutoff) db.
Proof.
  unfold clear_old_tmp_users, bind, lift.
  destruct created; [|by left]. destruct has_date_joined; [|by left].
  destruct (tmp_expire_date now) as [cutoff|e]; [|by left].
  right. by exists cutoff.
Qed.

(** The sweep creates no user and changes none. *)
Lemma clear_old_tmp_users_only_removes_users (now : datetime.t)
    (instance : Obj User.t) (created : bool) (db : DB) :
  users (clear_old_tmp_users now instance created db).2 ⊆ users db.
Proof.
  destruct (clear_old_tmp_users_shape now instance created db)
    as [Hsame|(cutoff & _ & Hrun)]; [by rewrite Hsame|].
  rewrite Hrun. unfold User_objects_filter_delete.
  destruct (store_fault _ _); simpl; [done|]. apply map_filter_subseteq.
Qed.


(** X3.  The sweep only ever removes rows: after it, for either value of
    [created] and whether it returns or raises, every table is a part of what
    it was, and the institutions are all still there. *)
Theorem clear_old_tmp_users_only_removes
    (now : datetime.t) (instance : Obj User.t) (created : bool) (db : DB) :
  let db' := (clear_old_tmp_users now instance created db).2 in
  users db' ⊆ users db /\
  profiles db' ⊆ profiles db /\
  linked_emails db' ⊆ linked_emails db /\
  accounts db' ⊆ accounts db /\
  institutions db' = institutions db.
Proof.
  destruct (clear_old_tmp_users_shape now instance created db)
    as [Hsame|(cutoff & _ & Hrun)]; simpl.
  - by rewrite Hsame.
  - rewrite Hrun. unfold User_objects_filter_delete.
    destruct (store_fault _ _); simpl; [done|].
    split_and!; try done; apply map_filter_subseteq.
Qed.

(** X4.  Deletion cascades: a user that the sweep has deleted has no profile
    left, and the profiles that were that user's have no linked email and no
    institution account left. *)
Theorem clear_old_tmp_users_cascades
    (now : datetime.t) (instance : Obj User.t) (created : bool) (db : DB)
    (k : Z) (u : User.t) :
  let db' := (clear_old_tmp_users now instance created db).2 in
  users db !! k = Some u ->
  users db' !! k = None ->
  profiles_of k db' = ∅ /\
  forall j p, profiles db !! j = Some p -> UserProfile.user p = k ->
    profiles db' !! j = None /\
    linked_emails_of j db' = ∅ /\ accounts_of j db' = ∅.
Proof.
  intros db' Hk Hgone. unfold db' in *.
  destruct (clear_old_tmp_users_shape now instance created db)
    as [Hsame|(cutoff & _ & Hrun)].
  { rewrite Hsame in Hgone. congruence. }
  rewrite Hrun in *. clear Hrun. unfold User_objects_filter_delete in *.
  destruct (store_fault _ _); simpl in *; [congruence|].
  set (selected := is_old_tmp_user cutoff) in *.
  set (doomed := filter (fun kv : Z * User.t => selected kv.2 = true) (users db)).
  set (orphans := filter (fun kv : Z * UserProfile.t =>
                            is_Some (doomed !! UserProfile.user kv.2))
                         (profiles db)).
  assert (doomed !! k = Some u) as Hdoomed.
  { apply map_lookup_filter_Some_2; [done|]. simpl.
    destruct (selected u) eqn:Hsel; [done|].
    assert (filter (fun kv : Z * User.t => selected kv.2 = false) (users db)
              !! k = Some u) by by apply map_lookup_filter_Some_2.
    congruence. }
  assert (forall j p, profiles db !! j = Some p -> UserProfile.user p = k ->
                      orphans !! j = Some p) as Horphan.
  { intros j p Hj Hu. apply map_lookup_filter_Some_2; [done|]. simpl.
    rewrite Hu, Hdoomed. by eexists. }
  split.
  - unfold profiles_of. simpl. apply map_empty. intros j.
    apply map_lookup_filter_None. right.
    intros p [Hj Hkeep]%map_lookup_filter_Some Hu. simpl in *.
    rewrite Hu, Hdoomed in Hkeep. done.
  - intros j p Hj Hu. specialize (Horphan j p Hj Hu). split_and!.
    + apply map_lookup_filter_None. right. intros p'. rewrite Hj.
      intros [= <-]. simpl. rewrite Hu, Hdoomed. done.
    + unfold linked_emails_of. simpl. apply map_empty. intros i.
      apply map_lookup_filter_None. right.
      intros e [Hi Hkeep]%map_lookup_filter_Some He. simpl in *.
      rewrite He, Horphan in Hkeep. done.
    + unfold accounts_of. simpl. apply map_empty. intros i.
      apply map_lookup_filter_None. right.
      intros a [Hi Hkeep]%map_lookup_filter_Some Ha. simpl in *.
      rewrite Ha, Horphan in Hkeep. done.
Qed.

(** X5.  The sweep takes nothing from a user it keeps: the profiles of a
    user who is still there afterwards are the ones the user had, and so are
    the linked emails and institution accounts of each of them. *)
Theorem clear_old_tmp_users_keeps_survivors_rows
    (now : datetime.t) (instance : Obj User.t) (created : bool) (db : DB)
    (k : Z) (u : User.t) :
  let db' := (clear_old_tmp_users now instance created db).2 in
  users db' !! k = Some u ->
  profiles_of k db' = profiles_of k db /\
  forall j p, profiles db !! j = Some p -> UserProfile.user p = k ->
    profiles db' !! j = Some p /\
    linked_emails_of j db' = linked_emails_of j db /\
    accounts_of j db' = accounts_of j db.
Proof.
  intros db' Hk. unfold db' in *.
  destruct (clear_old_tmp_users_shape now instance created db)
    as [Hsame|(cutoff & _ & Hrun)].
  { rewrite Hsame. split; [done|]. by intros j p Hj _. }
  rewrite Hrun in *. clear Hrun. unfold User_objects_filter_delete in *.
  destruct (store_fault _ _); simpl in *.
  { split; [done|]. by intros j p Hj _. }
  set (selected := is_old_tmp_user cutoff) in *.
  set (doomed := filter (fun kv : Z * User.t => selected kv.2 = true) (users db)).
  set (orphans := filter (fun kv : Z * UserProfile.t =>
                            is_Some (doomed !! UserProfile.user kv.2))
                         (profiles db)).
  apply map_lookup_filter_Some in Hk as [Hk Hsel]. simpl in Hsel.
  assert (doomed !! k = None) as Hdoomed.
  { apply map_lookup_filter_None. right. intros u'. rewrite Hk.
    intros [= <-]. simpl. by rewrite Hsel. }
  assert (forall j p, profiles db !! j = Some p -> UserProfile.user p = k ->
                      orphans !! j = None) as Horphan.
  { intros j p Hj Hu. apply map_lookup_filter_None. right. intros p'.
    rewrite Hj. intros [= <-]. simpl. rewrite Hu, Hdoomed.
    by intros [? ?]. }
  split.
  - unfold profiles_of. simpl. apply map_eq. intros j.
    apply option_eq. intros p. rewrite !map_lookup_filter_Some. simpl.
    split; [by intros [[? ?] ?]|].
    intros [Hj Hu]. split_and!; [done| |done]. by rewrite Hu.
  - intros j p Hj Hu. specialize (Horphan j p Hj Hu). split_and!.
    + apply map_lookup_filter_Some_2; [done|]. simpl. by rewrite Hu.
    + unfold linked_emails_of. simpl. apply map_eq. intros i.
      apply option_eq. intros e. rewrite !map_lookup_filter_Some. simpl.
      split; [by intros [[? ?] ?]|].
      intros [Hi He]. split_and!; [done| |done]. by rewrite He.
    + unfold accounts_of. simpl. apply map_eq. intros i.
      apply option_eq. intros a. rewrite !map_lookup_filter_Some. simpl.
      split; [by intros [[? ?] ?]|].
      intros [Hi Ha]. split_and!; [done| |done]. by rewrite Ha.
Qed.


(** *** The cutoff *)

(** Against a midnight only the day counts. *)
Lemma datetime_ltb_midnight_iff (d : datetime.t) (o : Z) :
  datetime.valid d ->
  datetime.ltb d (datetime.mk o 0 0 0 0) = true <-> datetime.ordinal d < o.
Proof.
  intros Hv. destruct (Z.ltb_spec (datetime.ordinal d) o) as [Hlt|Hge].
  - split; [done|]. intros _. unfold datetime.ltb. simpl.
    by replace (datetime.ordinal d <? o) with true
      by (symmetry; by apply Z.ltb_lt).
  - rewrite datetime_ltb_midnight by done. split; [done|lia].
Qed.

(** X6.  Whenever a cutoff is computed from a valid [now], it is a valid
    datetime at 00:00:00.000000, it is never later than [now] minus the
    window, and it is less than one day (86400000000 microseconds) earlier:
    the floor to the day gives up to a day of extra grace, never less. *)
Theorem tmp_expire_date_day_floor (now cutoff : datetime.t) :
  datetime.valid now ->
  tmp_expire_date now = Return cutoff ->
  datetime.valid cutoff /\
  datetime.replace_midnight cutoff = cutoff /\
  datetime.total_microseconds cutoff <=
    datetime.total_microseconds now
      - PASSWORD_RESET_TIMEOUT_DAYS * 86400000000 <
    datetime.total_microseconds cutoff + 86400000000.
Proof.
  intros Hv Hcut. unfold tmp_expire_date, datetime.timedelta, datetime.sub in Hcut.
  destruct (Z.abs _ <=? _); [|done]. simpl in Hcut.
  destruct (Z.ltb_spec 0 (datetime.ordinal now - PASSWORD_RESET_TIMEOUT_DAYS));
    [|done].
  destruct (Z.leb_spec (datetime.ordinal now - PASSWORD_RESET_TIMEOUT_DAYS)
              datetime.MAXORDINAL); [|done].
  simpl in Hcut. injection Hcut as <-.
  unfold datetime.valid, datetime.total_microseconds in *. simpl.
  destruct Hv as (Ho & Hh & Hm & Hs & Hu).
  split_and!; try done; lia.
Qed.

(** X7.  A misconfigured window makes the sweep raise: with [date_joined]
    present, a window of more than 999999999 days either way, or one that
    moves the date out of 0001-01-01 .. 9999-12-31, gives [OverflowError] at
    every created event, before anything is deleted; and the dispatch then
    raises it after the bootstrap receiver has returned, with what that
    receiver stored still stored. *)
Theorem clear_old_tmp_users_window_overflow
    (now : datetime.t) (instance : Obj User.t) (db : DB) :
  has_date_joined = true ->
  999999999 < Z.abs PASSWORD_RESET_TIMEOUT_DAYS \/
  datetime.ordinal now - PASSWORD_RESET_TIMEOUT_DAYS < 1 \/
  datetime.MAXORDINAL < datetime.ordinal now - PASSWORD_RESET_TIMEOUT_DAYS ->
  clear_old_tmp_users now instance true db = (Raise OverflowError, db) /\
  forall db1, create_user_profile instance true db = (Return tt, db1) ->
    post_save now instance true db = (Raise OverflowError, db1).
Proof.
  intros Hcap Hrange.
  assert (tmp_expire_date now = Raise OverflowError) as Hcut.
  { unfold tmp_expire_date, datetime.timedelta, datetime.sub.
    destruct (Z.leb_spec (Z.abs PASSWORD_RESET_TIMEOUT_DAYS) 999999999);
      [|done].
    destruct (Z.ltb_spec 0 (datetime.ordinal now - PASSWORD_RESET_TIMEOUT_DAYS));
      [|done].
    destruct (Z.leb_spec (datetime.ordinal now - PASSWORD_RESET_TIMEOUT_DAYS)
                datetime.MAXORDINAL); [|done].
    lia. }
  assert (forall db0, clear_old_tmp_users now instance true db0 =
                      (Raise OverflowError, db0)) as Hsweep.
  { intros db0. unfold clear_old_tmp_users, bind, lift.
    by rewrite Hcap, Hcut. }
  split; [done|].
  intros db1 Hrun. unfold post_save, bind. by rewrite Hrun, Hsweep.
Qed.

(** X8.  The sweep compares days, not times: with [date_joined] present, the
    window in range and the store accepting the delete, a user who joined at
    a valid time [joined] is deleted exactly when the lookup
    [username__startswith='tmp-'] matches the username (case ignored on
    SQLite) and the day of joining is more than [window] days before the day
    of [now], whatever the time of day of either. *)
Theorem clear_old_tmp_users_compares_days
    (now : datetime.t) (instance : Obj User.t) (db : DB)
    (k : Z) (u : User.t) (joined : datetime.t) :
  has_date_joined = true ->
  Z.abs PASSWORD_RESET_TIMEOUT_DAYS <= 999999999 ->
  1 <= datetime.ordinal now - PASSWORD_RESET_TIMEOUT_DAYS <= datetime.MAXORDINAL ->
  (forall pks, store_fault db (DeleteUsers pks) = None) ->
  users db !! k = Some u ->
  User.date_joined u = Some joined ->
  datetime.valid joined ->
  users (clear_old_tmp_users now instance true db).2 !! k = None <->
  startswith like_is_case_sensitive "tmp-" (User.username u) = true /\
  datetime.ordinal joined + PASSWORD_RESET_TIMEOUT_DAYS < datetime.ordinal now.
Proof.
  intros Hcap Hw Hr Hf Hk Hj Hv.
  pose proof (tmp_expire_date_in_range now Hw Hr) as Hcut.
  set (cutoff := datetime.mk _ 0 0 0 0) in Hcut.
  assert (clear_old_tmp_users now instance true db =
          User_objects_filter_delete (is_old_tmp_user cutoff) db) as ->.
  { unfold clear_old_tmp_users, bind, lift. by rewrite Hcap, Hcut. }
  destruct (User_objects_filter_delete_ok (is_old_tmp_user cutoff) db Hf)
    as [_ ->].
  assert (is_old_tmp_user cutoff u = true <->
          startswith like_is_case_sensitive "tmp-" (User.username u) = true /\
          datetime.ordinal joined + PASSWORD_RESET_TIMEOUT_DAYS <
            datetime.ordinal now) as Hsel.
  { unfold is_old_tmp_user. rewrite Hj, andb_true_iff.
    unfold cutoff. rewrite datetime_ltb_midnight_iff by done.
    split; intros [? ?]; (split; [done|lia]). }
  rewrite <- Hsel. rewrite map_lookup_filter_None. split.
  - intros [Hnone|Hall]; [congruence|].
    specialize (Hall u Hk). simpl in Hall.
    by destruct (is_old_tmp_user cutoff u).
  - intros Htrue. right. intros u'. rewrite Hk. intros [= <-]. simpl.
    by rewrite Htrue.
Qed.

(** With the store accepting the statement, a bulk delete returns, and this
    is the database it leaves. *)
Lemma User_objects_filter_delete_run (selected : User.t -> bool) (db : DB) :
  (forall pks, store_fault db (DeleteUsers pks) = None) ->
  User_objects_filter_delete selected db =
    (Return tt,
     let doomed := filter (fun kv => selected kv.2 = true) (users db) in
     let orphans :=
       filter (fun kv => is_Some (doomed !! UserProfile.user kv.2))
              (profiles db) in
     mkDB (filter (fun kv => selected kv.2 = false) (users db))
          (filter (fun kv => doomed !! UserProfile.user kv.2 = None)
                  (profiles db))
          (filter (fun kv => orphans !! LinkedEmail.profile kv.2 = None)
                  (linked_emails db))
          (institutions db)
          (filter (fun kv => orphans !! InstitutionAccount.profile kv.2 = None)
                  (accounts db))).
Proof.
  intros Hf. unfold User_objects_filter_delete. by rewrite Hf.
Qed.

(** X9.  The sweep is idempotent: with the store accepting the deletes, a
    second sweep at the same time, for whatever user, has the outcome of the
    first and changes nothing more. *)
Theorem clear_old_tmp_users_idempotent
    (now : datetime.t) (instance1 instance2 : Obj User.t) (db : DB) :
  (forall db' pks, store_fault db' (DeleteUsers pks) = None) ->
  let r := clear_old_tmp_users now instance1 true db in
  clear_old_tmp_users now instance2 true r.2 = r.
Proof.
  intros Hf. unfold clear_old_tmp_users, bind, lift.
  destruct has_date_joined; [|done].
  destruct (tmp_expire_date now) as [cutoff|e]; [|done].
  set (selected := is_old_tmp_user cutoff).
  rewrite (User_objects_filter_delete_run selected db) by done.
  match goal with |- context [(Return tt, ?d)] => set (db1 := d) end.
  change ((Return tt, db1).2) with db1.
  rewrite (User_objects_filter_delete_run selected db1) by done.
  cbv zeta.
  assert (filter (fun kv : Z * User.t => selected kv.2 = true) (users db1) = ∅)
    as Hdoomed.
  { apply map_empty. intros i. apply map_lookup_filter_None. right.
    intros x [_ Hsel]%map_lookup_filter_Some. simpl in *. congruence. }
  rewrite Hdoomed.
  assert (filter (fun kv : Z * UserProfile.t =>
                    is_Some ((∅ : gmap Z User.t) !! UserProfile.user kv.2))
                 (profiles db1) = ∅) as Horphans.
  { apply map_empty. intros i. apply map_lookup_filter_None. right.
    intros x _. simpl. rewrite lookup_empty. by intros [? ?]. }
  rewrite Horphans.
  f_equal. destruct db1 as [us ps es ins acs] eqn:Hdb1.
  cbn [users profiles linked_emails institutions accounts].
  f_equal; apply map_filter_id; intros i x Hx; simpl;
    try apply lookup_empty.
  injection Hdb1 as <- _ _ _ _.
  by apply map_lookup_filter_Some in Hx as [_ ?].
Qed.


(** *** The whole dispatch *)

(** With the store accepting the inserts, the bootstrap of a stored user
    without a profile returns, and this is the database it leaves. *)
Lemma create_user_profile_run (instance : Obj User.t) (db : DB) :
  (forall db' s, store_fault db' s = None) ->
  is_Some (users db !! pk instance) ->
  profiles_of (pk instance) db = ∅ ->
  create_user_profile instance true db =
    (Return tt,
     mkDB (users db)
          (<[next_pk (profiles db) := UserProfile.mk (pk instance)]>
             (profiles db))
          (if str_truthy (User.email (fields instance))
           then <[next_pk (linked_emails db) :=
                    LinkedEmail.mk (next_pk (profiles db))
                      (User.email (fields instance)) true]> (linked_emails db)
           else linked_emails db)
          (institutions db) (accounts db)).
Proof.
  intros Hf Hu Hp. unfold create_user_profile, bind, ret.
  rewrite UserProfile_objects_create_ok by done. simpl.
  destruct (str_truthy _); [|done].
  rewrite LinkedEmail_objects_create_ok; [done|done|].
  simpl. rewrite lookup_insert_eq. by eexists.
Qed.

(** A bootstrap that returns has left the user with a profile. *)
Lemma create_user_profile_returns_profile (instance : Obj User.t) (db : DB) :
  (create_user_profile instance true db).1 = Return tt ->
  profiles_of (pk instance) (create_user_profile instance true db).2 <> ∅.
Proof.
  intros Hret.
  assert (profiles_of (pk instance) (create_user_profile instance true db).2 =
          profiles_of (pk instance) (UserProfile_objects_create instance db).2)
    as -> by (unfold profiles_of; by rewrite create_user_profile_profiles).
  unfold create_user_profile, bind in Hret.
  pose proof (UserProfile_objects_create_inv instance db) as Hinv.
  destruct (UserProfile_objects_create instance db) as [[p|e] db1]; [|done].
  destruct Hinv as (Hrow & _ & ->). unfold profiles_of. simpl.
  intros Hempty.
  assert (filter (fun kv : Z * UserProfile.t => UserProfile.user kv.2 = pk instance)
            (<[pk p := fields p]> (profiles db)) !! pk p = Some (fields p)) as Hin.
  { apply map_lookup_filter_Some_2; [apply lookup_insert_eq|].
    simpl. by rewrite Hrow. }
  rewrite Hempty in Hin. done.
Qed.

(** The bootstrap leaves the users as they are and every profile in place. *)
Lemma create_user_profile_keeps (instance : Obj User.t) (created : bool)
    (db : DB) (k : Z) :
  users (create_user_profile instance created db).2 = users db /\
  (profiles_of k db <> ∅ ->
   profiles_of k (create_user_profile instance created db).2 <> ∅).
Proof.
  destruct created; [|done]. split.
  - unfold create_user_profile, bind, ret.
    pose proof (UserProfile_objects_create_inv instance db) as H1.
    destruct (UserProfile_objects_create instance db) as [[p|e] db1];
      [|by subst].
    destruct H1 as (_ & _ & ->). destruct (obj_truthy p && _); [|done].
    match goal with
    | |- context [LinkedEmail_objects_create ?p ?a ?v ?d] =>
        pose proof (LinkedEmail_objects_create_frame p a v d) as [Hu _];
        destruct (LinkedEmail_objects_create p a v d) as [[?|?] ?]
    end; done.
  - intros Hne Hempty. apply Hne. apply map_empty. intros j.
    destruct (profiles_of k db !! j) as [p|] eqn:Hj; [|done].
    apply map_lookup_filter_Some in Hj as [Hj Hu].
    assert (profiles (create_user_profile instance true db).2 !! j = Some p)
      as Hj'.
    { rewrite create_user_profile_profiles.
      pose proof (UserProfile_objects_create_inv instance db) as H1.
      destruct (UserProfile_objects_create instance db) as [[q|e] db1];
        [|by subst].
      destruct H1 as (_ & Hfresh & ->). simpl.
      rewrite lookup_insert_ne; [done|congruence]. }
    assert (profiles_of k (create_user_profile instance true db).2 !! j =
            Some p) as Hin by by apply map_lookup_filter_Some_2.
    rewrite Hempty in Hin. done.
Qed.

(** A user that the sweep keeps, keeps its profiles. *)
Lemma clear_old_tmp_users_survivor_profiles (now : datetime.t)
    (instance : Obj User.t) (created : bool) (db : DB) (k : Z) (u : User.t) :
  users (clear_old_tmp_users now instance created db).2 !! k = Some u ->
  profiles_of k (clear_old_tmp_users now instance created db).2 =
  profiles_of k db.
Proof.
  intros Hk.
  destruct (clear_old_tmp_users_shape now instance created db)
    as [Hsame|(cutoff & _ & Hrun)]; [by rewrite Hsame|].
  rewrite Hrun in *. clear Hrun. unfold User_objects_filter_delete in *.
  destruct (store_fault _ _); simpl in *; [done|].
  apply map_lookup_filter_Some in Hk as [Hk Hsel]. simpl in Hsel.
  unfold profiles_of. simpl. apply map_eq. intros j.
  apply option_eq. intros p. rewrite !map_lookup_filter_Some. simpl.
  split; [by intros [[? ?] ?]|].
  intros [Hj Hu]. split_and!; [done| |done]. rewrite Hu.
  apply map_lookup_filter_None. right. intros u'. rewrite Hk.
  intros [= <-]. simpl. by rewrite Hsel.
Qed.

(** X10.  A successful dispatch keeps "every stored user has a profile": if
    every stored user other than the new one has a profile, the same holds
    after the created event however it ends, and when the dispatch returns
    the new user, if still stored, has one too. *)
Theorem post_save_keeps_users_profiled
    (now : datetime.t) (instance : Obj User.t) (db : DB) :
  (forall k u, users db !! k = Some u -> k <> pk instance ->
               profiles_of k db <> ∅) ->
  let r := post_save now instance true db in
  (forall k u, users r.2 !! k = Some u -> k <> pk instance ->
               profiles_of k r.2 <> ∅) /\
  (r.1 = Return tt ->
   forall k u, users r.2 !! k = Some u -> profiles_of k r.2 <> ∅).
Proof.
  intros Hall r.
  pose proof (create_user_profile_returns_profile instance db) as Hnew.
  pose proof (fun k => create_user_profile_keeps instance true db k) as Hkeep.
  unfold r, post_save, bind in *.
  destruct (create_user_profile instance true db) as [[[]|e] db1];
    simpl in *.
  - assert (forall k u, users db1 !! k = Some u -> profiles_of k db1 <> ∅)
      as Hall1.
    { intros k u Hk. destruct (Hkeep k) as [Hu Hp].
      destruct (decide (k = pk instance)) as [->|Hne]; [by apply Hnew|].
      apply Hp. rewrite Hu in Hk. eauto. }
    assert (forall k u,
      users (clear_old_tmp_users now instance true db1).2 !! k = Some u ->
      profiles_of k (clear_old_tmp_users now instance true db1).2 <> ∅)
      as Hafter.
    { intros k u Hk.
      rewrite (clear_old_tmp_users_survivor_profiles _ _ _ _ _ _ Hk).
      pose proof (clear_old_tmp_users_only_removes_users now instance true
                    db1) as Hsub.
      apply (Hall1 k u). by eapply lookup_weaken. }
    split; [|intros _]; eauto.
  - split; [|done]. intros k u Hk Hne. destruct (Hkeep k) as [Hu Hp].
    apply Hp. rewrite Hu in Hk. eauto.
Qed.


(** X11.  With the store accepting every statement and either no
    [date_joined] on the user model or the window in range, the dispatch of a
    created event for a stored user without a profile returns; no user has
    appeared; and the new user, if the sweep has not deleted it, has exactly
    one profile. *)
Theorem post_save_returns
    (now : datetime.t) (instance : Obj User.t) (db : DB) :
  (forall db' s, store_fault db' s = None) ->
  has_date_joined = false \/
  (Z.abs PASSWORD_RESET_TIMEOUT_DAYS <= 999999999 /\
   1 <= datetime.ordinal now - PASSWORD_RESET_TIMEOUT_DAYS <=
     datetime.MAXORDINAL) ->
  is_Some (users db !! pk instance) ->
  profiles_of (pk instance) db = ∅ ->
  let r := post_save now instance true db in
  r.1 = Return tt /\
  users r.2 ⊆ users db /\
  (is_Some (users r.2 !! pk instance) ->
   size (profiles_of (pk instance) r.2) = 1%nat).
Proof.
  intros Hf Hcfg Hu Hp r. unfold r, post_save, bind.
  rewrite create_user_profile_run by done.
  match goal with |- context [clear_old_tmp_users _ _ _ ?d] => set (db1 := d) end.
  assert (profiles_of (pk instance) db1 =
          {[next_pk (profiles db) := UserProfile.mk (pk instance)]}) as Hone.
  { unfold profiles_of in *. simpl.
    rewrite map_filter_insert_True by done. by rewrite Hp, insert_empty. }
  split_and!.
  - unfold clear_old_tmp_users, bind, lift.
    destruct Hcfg as [->|[Hw Hr]]; [done|].
    destruct has_date_joined; [|done].
    rewrite tmp_expire_date_in_range by done.
    by rewrite User_objects_filter_delete_run by done.
  - apply (clear_old_tmp_users_only_removes_users now instance true db1).
  - intros [u Hk].
    rewrite (clear_old_tmp_users_survivor_profiles _ _ _ _ _ _ Hk), Hone.
    apply map_size_singleton.
Qed.

(** X12.  A created user that is itself an old temporary user does not
    outlive its own creation event: with the store accepting every statement
    and the window in range, when the new user's name starts with "tmp-" and
    its day of joining is more than [window] days before today (as it is for
    every new user if the window is negative), the dispatch returns with the
    user deleted, and with it the profile and the linked email that the
    bootstrap had just created. *)
Theorem post_save_deletes_old_tmp_user_it_bootstrapped
    (now : datetime.t) (instance : Obj User.t) (db : DB)
    (joined : datetime.t) :
  (forall db' s, store_fault db' s = None) ->
  has_date_joined = true ->
  Z.abs PASSWORD_RESET_TIMEOUT_DAYS <= 999999999 ->
  1 <= datetime.ordinal now - PASSWORD_RESET_TIMEOUT_DAYS <= datetime.MAXORDINAL ->
  users db !! pk instance = Some (fields instance) ->
  profiles_of (pk instance) db = ∅ ->
  String.prefix "tmp-" (User.username (fields instance)) = true ->
  User.date_joined (fields instance) = Some joined ->
  datetime.valid joined ->
  datetime.ordinal joined + PASSWORD_RESET_TIMEOUT_DAYS < datetime.ordinal now ->
  let r := post_save now instance true db in
  r.1 = Return tt /\
  users r.2 !! pk instance = None /\
  profiles r.2 ⊆ profiles db /\
  linked_emails r.2 ⊆ linked_emails db.
Proof.
  intros Hf Hcap Hw Hr Hu Hp Hname Hj Hv Hold r. unfold r, post_save, bind.
  rewrite create_user_profile_run by (done || by eexists).
  match goal with |- context [clear_old_tmp_users _ _ _ ?d] => set (db1 := d) end.
  pose proof (tmp_expire_date_in_range now Hw Hr) as Hcut.
  set (cutoff := datetime.mk _ 0 0 0 0) in Hcut.
  assert (clear_old_tmp_users now instance true db1 =
          User_objects_filter_delete (is_old_tmp_user cutoff) db1) as ->.
  { unfold clear_old_tmp_users, bind, lift. by rewrite Hcap, Hcut. }
  rewrite User_objects_filter_delete_run by done. cbv zeta.
  set (selected := is_old_tmp_user cutoff).
  assert (selected (fields instance) = true) as Hsel.
  { unfold selected, is_old_tmp_user.
    rewrite (startswith_of_prefix _ _ Hname), Hj. simpl.
    unfold cutoff. apply datetime_ltb_midnight_iff; [done|lia]. }
  set (doomed := filter (fun kv : Z * User.t => selected kv.2 = true)
                        (users db1)).
  assert (doomed !! pk instance = Some (fields instance)) as Hdoomed
    by by apply map_lookup_filter_Some_2.
  set (kp := next_pk (profiles db)).
  set (orphans := filter (fun kv : Z * UserProfile.t =>
                            is_Some (doomed !! UserProfile.user kv.2))
                         (profiles db1)).
  assert (orphans !! kp = Some (UserProfile.mk (pk instance))) as Horphan.
  { apply map_lookup_filter_Some_2; [apply lookup_insert_eq|].
    simpl. rewrite Hdoomed. by eexists. }
  cbn [fst snd users profiles linked_emails].
  split_and!.
  - done.
  - apply map_lookup_filter_None. right. intros u'.
    change (users db1) with (users db). rewrite Hu. intros [= <-].
    simpl. by rewrite Hsel.
  - apply map_subseteq_spec. intros j p [Hj' Hkeep]%map_lookup_filter_Some.
    simpl in *. apply lookup_insert_Some in Hj' as [[<- <-]|[_ ?]]; [|done].
    simpl in Hkeep. rewrite Hdoomed in Hkeep. done.
  - apply map_subseteq_spec. intros j e [Hj' Hkeep]%map_lookup_filter_Some.
    simpl in *. destruct (str_truthy _); [|done].
    apply lookup_insert_Some in Hj' as [[<- <-]|[_ ?]]; [|done].
    simpl in Hkeep. fold kp in Hkeep. rewrite Horphan in Hkeep. done.
Qed.


(** *** Renderings *)

(** No string that holds " | " is the fallback marker. *)
Lemma append_bar_not_NULL (s t : string) : s +:+ " | " +:+ t <> "NULL".
Proof.
  destruct s as [|a [|b [|c [|d [|e s]]]]]; simpl; intros H; discriminate H.
Qed.

(** X13.  For a linked email the marker is exact: the rendering is "NULL" if
    and only if its profile cannot be loaded.  (A profile that loads but has
    lost its user shows as "NULL | address".) *)
Theorem LinkedEmail_str_NULL_iff (self : Obj LinkedEmail.t) (db : DB) :
  LinkedEmail_str self db = (Return "NULL", db) <->
  profiles db !! LinkedEmail.profile (fields self) = None.
Proof.
  unfold LinkedEmail_str, UserProfile_str, try_except, bind, get_related, ret.
  destruct (profiles db !! _) as [p|]; [|done]. simpl.
  split; [|done].
  destruct (users db !! _) as [u|]; intros [= H];
    by apply append_bar_not_NULL in H.
Qed.

(** X14.  For an institution account too: the rendering is "NULL" if and
    only if its profile or its institution cannot be loaded. *)
Theorem InstitutionAccount_str_NULL_iff
    (self : Obj InstitutionAccount.t) (db : DB) :
  InstitutionAccount_str self db = (Return "NULL", db) <->
  profiles db !! InstitutionAccount.profile (fields self) = None \/
  institutions db !! InstitutionAccount.institution (fields self) = None.
Proof.
  unfold InstitutionAccount_str, Institution_str, UserProfile_str, try_except,
    bind, get_related, ret.
  destruct (profiles db !! _) as [p|]; [|by split; [left|]].
  destruct (institutions db !! _) as [i|]; [|by split; [right|]].
  simpl. split; [|by intros [?|?]].
  destruct (users db !! _) as [u|]; intros [= H];
    by apply append_bar_not_NULL in H.
Qed.

(** X15.  The profile that the bootstrap creates renders as its user: for a
    stored user, once profile creation has returned the profile [p], [p]
    renders in the database that the receiver leaves as the user's email, or
    as the username when the email is empty. *)
Theorem bootstrapped_profile_renders_its_user
    (instance : Obj User.t) (db db1 : DB) (p : Obj UserProfile.t) :
  users db !! pk instance = Some (fields instance) ->
  UserProfile_objects_create instance db = (Return p, db1) ->
  let db' := (create_user_profile instance true db).2 in
  UserProfile_str p db' =
    (Return (if str_truthy (User.email (fields instance))
             then User.email (fields instance)
             else User.username (fields instance)), db').
Proof.
  intros Hu Hcreate db'.
  pose proof (UserProfile_objects_create_inv instance db) as Hinv.
  rewrite Hcreate in Hinv. destruct Hinv as (Hrow & _ & _).
  destruct (create_user_profile_keeps instance true db 0) as [Husers _].
  fold db' in Husers.
  unfold UserProfile_str, try_except, bind, get_related, ret.
  rewrite Hrow. cbn [UserProfile.user]. by rewrite Husers, Hu.
Qed.

(** X16.  The linked email that the bootstrap seeds shows its address twice:
    with the store accepting the inserts, for a stored user without a profile
    and with a non-empty email, the receiver leaves one new linked email, and
    it renders as "email | email", the profile part being the user's email
    again. *)
Theorem seeded_email_renders_address_twice
    (instance : Obj User.t) (db : DB) :
  (forall db' s, store_fault db' s = None) ->
  users db !! pk instance = Some (fields instance) ->
  profiles_of (pk instance) db = ∅ ->
  User.email (fields instance) <> "" ->
  let db' := (create_user_profile instance true db).2 in
  exists k e,
    linked_emails db !! k = None /\
    linked_emails db' = <[k := e]> (linked_emails db) /\
    LinkedEmail_str (mkObj k e) db' =
      (Return (User.email (fields instance) +:+ " | " +:+
               User.email (fields instance)), db').
Proof.
  intros Hf Hu Hp Haddr db'. unfold db'.
  rewrite create_user_profile_run by (done || by eexists).
  apply str_truthy_nonempty in Haddr. rewrite Haddr. simpl.
  eexists _, _. split_and!; [apply next_pk_fresh|done|].
  unfold LinkedEmail_str, UserProfile_str, try_except, bind, get_related, ret.
  simpl. rewrite lookup_insert_eq. simpl. rewrite Hu. simpl.
  by rewrite Haddr.
Qed.


End Receivers.

(** ** The theorems at work *)

Lemma create_user_profile_exactly_one_profile_witness :
  let db' :=
    (create_user_profile Sample.healthy_store Sample.alice true Sample.db0).2 in
  (exists k,
     profiles Sample.db0 !! k = None /\
     profiles db' = <[k := UserProfile.mk 1]> (profiles Sample.db0) /\
     profiles_of 1 db' = {[k := UserProfile.mk 1]}) /\
  size (profiles db') = S (size (profiles Sample.db0)) /\
  size (profiles_of 1 db') = 1%nat /\
  profiles (create_user_profile Sample.healthy_store Sample.alice true db').2 =
    profiles db'.
Proof.
  apply (create_user_profile_exactly_one_profile
           Sample.healthy_store Sample.alice Sample.db0).
  - exists (fields Sample.alice). reflexivity.
  - reflexivity.
  - reflexivity.
Defined.

Lemma create_user_profile_seeds_verified_email_witness :
  let db' :=
    (create_user_profile Sample.healthy_store Sample.alice true Sample.db0).2 in
  ((create_user_profile Sample.healthy_store Sample.alice true Sample.db0).1 =
     Return tt /\
   profiles db' !! 1 = Some (UserProfile.mk 1) /\
   size (linked_emails db') = 1%nat /\
   exists k,
     linked_emails Sample.db0 !! k = None /\
     linked_emails db' = <[k := LinkedEmail.mk 1 "a@x.com" true]> ∅) /\
  linked_emails
    (create_user_profile Sample.healthy_store Sample.bob true Sample.db0).2 = ∅ /\
  (create_user_profile Sample.healthy_store Sample.carol true Sample.db0 =
     (Raise IntegrityError, Sample.db0) /\
   linked_emails
     (create_user_profile Sample.healthy_store Sample.carol true Sample.db0).2 =
     ∅).
Proof.
  split; [|split].
  - apply (proj1 (create_user_profile_seeds_verified_email
                    Sample.healthy_store Sample.alice Sample.db0)
             ltac:(discriminate)
             (mkObj 1 (UserProfile.mk 1)) Sample.db1); reflexivity.
  - apply (proj1 (proj2 (create_user_profile_seeds_verified_email
                    Sample.healthy_store Sample.bob Sample.db0))).
    reflexivity.
  - apply (proj2 (proj2 (create_user_profile_seeds_verified_email
                    Sample.healthy_store Sample.carol Sample.db0))
             IntegrityError Sample.db0).
    reflexivity.
Defined.





Lemma clear_old_tmp_users_day_floor_grace_witness :
  users Sample.db0 !! 2 = Some (fields Sample.tmp_foo) /\
  users (clear_old_tmp_users Sample.healthy_store 1 true true
           (Sample.morning 738001) Sample.carol true Sample.db0).2 !! 2 =
    Some (fields Sample.tmp_foo).
Proof.
  split; [reflexivity|].
  apply (clear_old_tmp_users_day_floor_grace Sample.healthy_store 1 true true
           (Sample.morning 738001) Sample.carol true Sample.db0 2
           (fields Sample.tmp_foo) (Sample.evening 738000)).
  - lia.
  - reflexivity.
  - reflexivity.
  - reflexivity.
  - unfold datetime.valid, datetime.MAXORDINAL. simpl. lia.
  - right. reflexivity.
Defined.

(** C5 as it is written fails for a window of zero days.  tmp-foo joined on
    day 738000 in the evening; a sweep the next morning has midnight of day
    738001 as its cutoff, and deletes the user. *)
Lemma clear_old_tmp_users_zero_window_no_grace :
  let joined := Sample.evening 738000 in
  let now := Sample.morning 738001 in
  users Sample.db0 !! 2 = Some (fields Sample.tmp_foo) /\
  String.prefix "tmp-" (User.username (fields Sample.tmp_foo)) = true /\
  User.date_joined (fields Sample.tmp_foo) = Some joined /\
  datetime.ordinal now = datetime.ordinal joined + 1 /\
  tmp_expire_date 0 now = Return (datetime.mk 738001 0 0 0 0) /\
  users (clear_old_tmp_users Sample.healthy_store 0 true true now Sample.carol true
           Sample.db0).2 !! 2 = None.
Proof. repeat split; reflexivity. Qed.

Lemma clear_old_tmp_users_without_date_joined_witness :
  clear_old_tmp_users Sample.healthy_store 0 false true (Sample.morning 738001)
    Sample.carol true Sample.db0 = (Return tt, Sample.db0).
Proof.
  apply (clear_old_tmp_users_without_date_joined Sample.healthy_store 0 false true
           (Sample.morning 738001) Sample.carol true Sample.db0).
  reflexivity.
Defined.

Lemma create_user_profile_not_atomic_witness :
  create_user_profile Sample.no_email_store Sample.alice true Sample.db0 =
    (Raise DatabaseError, Sample.db1) /\
  post_save Sample.no_email_store 7 true true (Sample.morning 738000) Sample.alice
    true Sample.db0 = (Raise DatabaseError, Sample.db1) /\
  profiles Sample.db0 !! 1 = None /\
  profiles Sample.db1 !! 1 = Some (UserProfile.mk 1) /\
  linked_emails Sample.db1 = linked_emails Sample.db0.
Proof.
  apply (create_user_profile_not_atomic Sample.no_email_store 7 true true
           (Sample.morning 738000) Sample.alice Sample.db0 Sample.db1
           Sample.db1 (mkObj 1 (UserProfile.mk 1)) DatabaseError).
  - discriminate.
  - reflexivity.
  - reflexivity.
Defined.

Lemma LinkedEmail_address_not_unique_witness :
  let p := mkObj 1 (UserProfile.mk 1) in
  let r1 :=
    LinkedEmail_objects_create Sample.healthy_store p "a@x.com" true Sample.db1 in
  let r2 :=
    LinkedEmail_objects_create Sample.healthy_store p "a@x.com" true r1.2 in
  exists e1 e2,
    r1.1 = Return e1 /\ r2.1 = Return e2 /\ pk e1 <> pk e2 /\
    linked_emails_of 1 r2.2 !! pk e1 = Some (LinkedEmail.mk 1 "a@x.com" true) /\
    linked_emails_of 1 r2.2 !! pk e2 = Some (LinkedEmail.mk 1 "a@x.com" true).
Proof.
  apply (LinkedEmail_address_not_unique Sample.healthy_store
           (mkObj 1 (UserProfile.mk 1)) "a@x.com" Sample.db1).
  - exists (UserProfile.mk 1). reflexivity.
  - intros db' row. reflexivity.
Defined.

Lemma str_never_raises_witness :
  UserProfile_str (mkObj 1 (UserProfile.mk 9)) Sample.db1 =
    (Return "NULL", Sample.db1) /\
  LinkedEmail_str (mkObj 1 (LinkedEmail.mk 9 "a@x.com" true)) Sample.db1 =
    (Return "NULL", Sample.db1) /\
  Institution_str (mkObj 1 (Institution.mk "Yale" "yale" "https://cas.x/")) Sample.db1 =
    (Return "yale", Sample.db1) /\
  InstitutionAccount_str (mkObj 1 (InstitutionAccount.mk 1 9 "abc")) Sample.db1 =
    (Return "NULL", Sample.db1).
Proof.
  destruct (str_never_raises Sample.db1) as (Hp & He & Hi & Ha).
  split; [|split; [|split]].
  - destruct (Hp (mkObj 1 (UserProfile.mk 9))) as (s & Hs & Hnull).
    rewrite Hs, Hnull; reflexivity.
  - destruct (He (mkObj 1 (LinkedEmail.mk 9 "a@x.com" true)))
      as (s & Hs & Hnull).
    rewrite Hs, Hnull; reflexivity.
  - apply Hi.
  - destruct (Ha (mkObj 1 (InstitutionAccount.mk 1 9 "abc")))
      as (s & Hs & Hnull).
    rewrite Hs, Hnull; [reflexivity|]. right. reflexivity.
Defined.

(** ** The scenarios of the specification *)

(** A user created with an email gets a profile and a verified linked email
    for that address. *)
Example scenario_user_with_email :
  let db' :=
    (post_save Sample.healthy_store 7 true true (Sample.morning 738000) Sample.alice
       true Sample.db0).2 in
  profiles db' = {[ 1 := UserProfile.mk 1 ]} /\
  linked_emails db' = {[ 1 := LinkedEmail.mk 1 "a@x.com" true ]}.
Proof. split; reflexivity. Qed.

(** A user created without an email gets a profile and no linked email. *)
Example scenario_user_without_email :
  let db' :=
    (post_save Sample.healthy_store 7 true true (Sample.morning 738000) Sample.bob
       true Sample.db0).2 in
  profiles db' = {[ 1 := UserProfile.mk 3 ]} /\ linked_emails db' = ∅.
Proof. split; reflexivity. Qed.

(** With a window of 7 days, tmp-foo is deleted by the creation of a user ten
    days after it joined, and is kept by one five days after. *)
Example scenario_tmp_user_after_ten_days :
  users (post_save Sample.healthy_store 7 true true (Sample.evening 738010)
           Sample.alice true Sample.db0).2 !! 2 = None.
Proof. reflexivity. Qed.

Example scenario_tmp_user_after_five_days :
  users (post_save Sample.healthy_store 7 true true (Sample.evening 738005)
           Sample.alice true Sample.db0).2 !! 2 = Some (fields Sample.tmp_foo).
Proof. reflexivity. Qed.

(** ** The further properties at work *)

Lemma post_save_consistent_witness :
  consistent
    (post_save Sample.healthy_store 7 true true (Sample.morning 738010) Sample.alice
       true Sample.db0).2.
Proof.
  apply (post_save_consistent Sample.healthy_store 7 true true
           (Sample.morning 738010) Sample.alice true Sample.db0).
  constructor; simpl; intros; by simplify_map_eq.
Defined.

Lemma create_user_profile_again_raises_witness :
  create_user_profile Sample.healthy_store Sample.alice true Sample.db1 =
    (Raise IntegrityError, Sample.db1).
Proof.
  apply (create_user_profile_again_raises Sample.healthy_store Sample.alice
           Sample.db1).
  - reflexivity.
  - intros H. apply (f_equal (lookup 1)) in H. vm_compute in H. discriminate H.
Defined.

Lemma clear_old_tmp_users_cascades_witness :
  let db' :=
    (clear_old_tmp_users Sample.healthy_store 7 true true (Sample.morning 738010)
       Sample.carol true Sample.db2).2 in
  profiles_of 2 db' = ∅ /\
  forall j p, profiles Sample.db2 !! j = Some p -> UserProfile.user p = 2 ->
    profiles db' !! j = None /\
    linked_emails_of j db' = ∅ /\ accounts_of j db' = ∅.
Proof.
  apply (clear_old_tmp_users_cascades Sample.healthy_store 7 true true
           (Sample.morning 738010) Sample.carol true Sample.db2 2
           (fields Sample.tmp_foo)).
  - reflexivity.
  - reflexivity.
Defined.

Lemma clear_old_tmp_users_keeps_survivors_rows_witness :
  let db' :=
    (clear_old_tmp_users Sample.healthy_store 7 true true (Sample.morning 738010)
       Sample.carol true Sample.db2).2 in
  profiles_of 1 db' = profiles_of 1 Sample.db2 /\
  forall j p, profiles Sample.db2 !! j = Some p -> UserProfile.user p = 1 ->
    profiles db' !! j = Some p /\
    linked_emails_of j db' = linked_emails_of j Sample.db2 /\
    accounts_of j db' = accounts_of j Sample.db2.
Proof.
  apply (clear_old_tmp_users_keeps_survivors_rows Sample.healthy_store 7 true true
           (Sample.morning 738010) Sample.carol true Sample.db2 1
           (fields Sample.alice)).
  reflexivity.
Defined.

Lemma tmp_expire_date_day_floor_witness :
  let cutoff := datetime.mk 738003 0 0 0 0 in
  datetime.valid cutoff /\
  datetime.replace_midnight cutoff = cutoff /\
  datetime.total_microseconds cutoff <=
    datetime.total_microseconds (Sample.evening 738010) - 7 * 86400000000 <
    datetime.total_microseconds cutoff + 86400000000.
Proof.
  apply (tmp_expire_date_day_floor 7 (Sample.evening 738010)
           (datetime.mk 738003 0 0 0 0)).
  - unfold datetime.valid, datetime.MAXORDINAL. simpl. lia.
  - reflexivity.
Defined.

Lemma clear_old_tmp_users_window_overflow_witness :
  clear_old_tmp_users Sample.healthy_store 1000000000 true true
    (Sample.morning 738010) Sample.alice true Sample.db0 =
    (Raise OverflowError, Sample.db0) /\
  forall db1,
    create_user_profile Sample.healthy_store Sample.alice true Sample.db0 =
      (Return tt, db1) ->
    post_save Sample.healthy_store 1000000000 true true (Sample.morning 738010)
      Sample.alice true Sample.db0 = (Raise OverflowError, db1).
Proof.
  apply (clear_old_tmp_users_window_overflow Sample.healthy_store 1000000000
           true true (Sample.morning 738010) Sample.alice Sample.db0).
  - reflexivity.
  - left. simpl. lia.
Defined.

Lemma clear_old_tmp_users_compares_days_witness :
  users (clear_old_tmp_users Sample.healthy_store 7 true true
           (Sample.morning 738010) Sample.carol true Sample.db0).2 !! 2 = None
  <->
  startswith true "tmp-" "tmp-foo" = true /\ 738000 + 7 < 738010.
Proof.
  apply (clear_old_tmp_users_compares_days Sample.healthy_store 7 true true
           (Sample.morning 738010) Sample.carol Sample.db0 2
           (fields Sample.tmp_foo) (Sample.evening 738000)).
  - reflexivity.
  - simpl. lia.
  - unfold datetime.MAXORDINAL. simpl. lia.
  - intros pks. reflexivity.
  - reflexivity.
  - reflexivity.
  - unfold datetime.valid, datetime.MAXORDINAL. simpl. lia.
Defined.

Lemma clear_old_tmp_users_idempotent_witness :
  let r :=
    clear_old_tmp_users Sample.healthy_store 7 true true (Sample.morning 738010)
      Sample.carol true Sample.db2 in
  clear_old_tmp_users Sample.healthy_store 7 true true (Sample.morning 738010)
    Sample.alice true r.2 = r.
Proof.
  apply (clear_old_tmp_users_idempotent Sample.healthy_store 7 true true
           (Sample.morning 738010) Sample.carol Sample.alice Sample.db2).
  intros db' pks. reflexivity.
Defined.

Lemma post_save_keeps_users_profiled_witness :
  let r :=
    post_save Sample.healthy_store 7 true true (Sample.morning 738000) Sample.carol
      true Sample.db3 in
  (forall k u, users r.2 !! k = Some u -> k <> 4 -> profiles_of k r.2 <> ∅) /\
  (r.1 = Return tt ->
   forall k u, users r.2 !! k = Some u -> profiles_of k r.2 <> ∅).
Proof.
  apply (post_save_keeps_users_profiled Sample.healthy_store 7 true true
           (Sample.morning 738000) Sample.carol Sample.db3).
  intros k u Hk Hne. simpl in Hk, Hne.
  apply lookup_insert_Some in Hk as [[<- _]|[_ Hk]].
  - intros H. apply (f_equal (lookup 1)) in H. vm_compute in H. discriminate H.
  - by apply lookup_singleton_Some in Hk as [<- _].
Defined.

Lemma post_save_returns_witness :
  let r :=
    post_save Sample.healthy_store 7 true true (Sample.morning 738010) Sample.alice
      true Sample.db0 in
  r.1 = Return tt /\
  users r.2 ⊆ users Sample.db0 /\
  (is_Some (users r.2 !! 1) -> size (profiles_of 1 r.2) = 1%nat).
Proof.
  apply (post_save_returns Sample.healthy_store 7 true true (Sample.morning 738010)
           Sample.alice Sample.db0).
  - intros db' s. reflexivity.
  - right. unfold datetime.MAXORDINAL. simpl. lia.
  - exists (fields Sample.alice). reflexivity.
  - reflexivity.
Defined.

Lemma post_save_deletes_old_tmp_user_it_bootstrapped_witness :
  let r :=
    post_save Sample.healthy_store (-1) true true (Sample.evening 738000)
      Sample.tmp_foo true Sample.db0 in
  r.1 = Return tt /\
  users r.2 !! 2 = None /\
  profiles r.2 ⊆ profiles Sample.db0 /\
  linked_emails r.2 ⊆ linked_emails Sample.db0.
Proof.
  apply (post_save_deletes_old_tmp_user_it_bootstrapped Sample.healthy_store
           (-1) true true (Sample.evening 738000) Sample.tmp_foo Sample.db0
           (Sample.evening 738000)).
  - intros db' s. reflexivity.
  - reflexivity.
  - simpl. lia.
  - unfold datetime.MAXORDINAL. simpl. lia.
  - reflexivity.
  - reflexivity.
  - reflexivity.
  - reflexivity.
  - unfold datetime.valid, datetime.MAXORDINAL. simpl. lia.
  - simpl. lia.
Defined.

Lemma bootstrapped_profile_renders_its_user_witness :
  let db' :=
    (create_user_profile Sample.healthy_store Sample.alice true Sample.db0).2 in
  UserProfile_str (mkObj 1 (UserProfile.mk 1)) db' = (Return "a@x.com", db').
Proof.
  apply (bootstrapped_profile_renders_its_user Sample.healthy_store
           Sample.alice Sample.db0 Sample.db1 (mkObj 1 (UserProfile.mk 1))).
  - reflexivity.
  - reflexivity.
Defined.

Lemma seeded_email_renders_address_twice_witness :
  let db' :=
    (create_user_profile Sample.healthy_store Sample.alice true Sample.db0).2 in
  exists k e,
    linked_emails Sample.db0 !! k = None /\
    linked_emails db' = <[k := e]> (linked_emails Sample.db0) /\
    LinkedEmail_str (mkObj k e) db' = (Return "a@x.com | a@x.com", db').
Proof.
  apply (seeded_email_renders_address_twice Sample.healthy_store Sample.alice
           Sample.db0).
  - intros db' s. reflexivity.
  - reflexivity.
  - reflexivity.
  - discriminate.
Defined.
